(** * Checkpointing and token reader of probnmn-clevr, embedded in Rocq

    Sources embedded here:
    - [tbd/utils/checkpointing.py]: [create_checkpoint_dir],
      [save_checkpoint], [load_checkpoint];
    - [tbd/data/readers.py]: class [ClevrTokensReader].

    The Python code is effectful (file system, a [git] subprocess, the
    [warnings] module, exceptions).  It is embedded as functions in a state
    and exception monad over an explicit [world].  The library calls the
    code makes ([os], [shutil], [subprocess], [torch], [h5py], [numpy]) are
    modelled by small executable definitions, each documented with the
    library behaviour it stands for. *)

From Stdlib Require Import ZArith List String Ascii Lia.
From stdpp Require Import base option list strings pretty gmap fin_maps.

Local Open Scope Z_scope.

(** ** Python results *)

Inductive exn :=
| FileNotFoundError | FileExistsError | NotADirectoryError | IsADirectoryError
| SameFileError | UnicodeDecodeError | OSError
| KeyError | IndexError | TypeError | ValueError | AttributeError
| RuntimeError | PicklingError | UnpicklingError.

Inductive result (A : Type) :=
| Ok (a : A)
| Raise (e : exn).
Arguments Ok {A} a.
Arguments Raise {A} e.

Global Instance exn_eq_dec : EqDecision exn.
Proof. solve_decision. Defined.

(** ** Python [str] methods used by the code *)

Module Str.

(** [str.isspace] on one character, restricted to code points below 128:
    tab, line feed, vertical tab, form feed, carriage return, the four
    separators 28..31 and the space. *)
Definition isspace (c : ascii) : bool :=
  let n := nat_of_ascii c in
  ((9 <=? n)%nat && (n <=? 13)%nat)
  || ((28 <=? n)%nat && (n <=? 32)%nat).

Fixpoint lstrip (s : string) : string :=
  match s with
  | EmptyString => EmptyString
  | String c s' => if isspace c then lstrip s' else s
  end.

Definition rstrip (s : string) : string :=
  String.rev (lstrip (String.rev s)).

(** [s.strip()] *)
Definition strip (s : string) : string := rstrip (lstrip s).

(** [s.replace(old, new)] for a one-character [old]. *)
Fixpoint replace (old : ascii) (new : string) (s : string) : string :=
  match s with
  | EmptyString => EmptyString
  | String c s' =>
      if Ascii.eqb c old then new +:+ replace old new s'
      else String c (replace old new s')
  end.

Definition newline : ascii := ascii_of_nat 10.

(** The idiom of [checkpointing.py]: [strip()], then every line feed
    replaced by the empty string. *)
Definition strip_sha (s : string) : string :=
  replace newline EmptyString (strip s).

End Str.

(** ** Values kept in checkpoints *)

(** An entry of a state dict.  [Tensor] carries the flattened data of a
    tensor; [Closure] stands for an object [pickle] cannot serialise (a
    lambda kept in an optimizer parameter group, say). *)
Inductive value :=
| Tensor (data : list Z)
| Closure.

Global Instance value_eq_dec : EqDecision value.
Proof. solve_decision. Defined.

(** What [Optimizer.state_dict()] returns: the sizes of the parameter groups
    and the entries (hyper-parameters and per-parameter buffers). *)
Record optim_state := {
  sd_param_groups : list nat;
  sd_state : gmap string value
}.

(** The objects the code stores under the keys of a checkpoint dict. *)
Inductive component :=
| ModelState (sd : gmap string value)
| OptimState (od : optim_state).

(** ** The tokens file (HDF5) *)

(** A row of a dataset along its first dimension. *)
Inductive row :=
| Scalar (z : Z)
| Vector (zs : list Z).

(** A [numpy.ndarray], seen as the list of its rows along axis 0. *)
Abbreviation ndarray := (list row).

Record hdf_file := {
  datasets : gmap string ndarray;
  attrs : gmap string string
}.

(** ** The world *)

(** A path is the list of its components: [os.path.join] of a directory and
    a relative name appends a component. *)
Abbreviation path := (list string).

Inductive node :=
| Dir
| Text (s : string)
| Pickled (obj : gmap string component)
| Truncated
| Hdf5 (f : hdf_file).

(** Outcome of launching [git rev-parse --short HEAD]: the executable is
    not found, or it runs and yields its standard output and exit status. *)
Inductive git_env :=
| GitMissing
| GitRan (stdout : string) (returncode : Z).

Record datetime := {
  year : nat; month : nat; day : nat;
  hour : nat; minute : nat; second : nat
}.

Record world := {
  fs : gmap path node;
  git : git_env;
  now : datetime;
  warnings : list string
}.

Definition set_fs (w : world) (f : gmap path node) : world :=
  {| fs := f; git := git w; now := now w; warnings := warnings w |}.

Definition add_warning (w : world) (msg : string) : world :=
  {| fs := fs w; git := git w; now := now w;
     warnings := (warnings w ++ [msg])%list |}.

(** ** State and exception monad *)

Definition io (A : Type) : Type := world -> result A * world.

Definition ret {A} (a : A) : io A := fun w => (Ok a, w).

Definition raise {A} (e : exn) : io A := fun w => (Raise e, w).

Definition bind {A B} (c : io A) (k : A -> io B) : io B :=
  fun w =>
    match c w with
    | (Ok a, w') => k a w'
    | (Raise e, w') => (Raise e, w')
    end.

(** [try: c  except e: pass] *)
Definition try_pass (e : exn) (c : io unit) : io unit :=
  fun w =>
    match c w with
    | (Raise e', w') =>
        if bool_decide (e' = e) then (Ok tt, w') else (Raise e', w')
    | r => r
    end.

Declare Scope io_scope.
Delimit Scope io_scope with io.
Notation "x <- c ;; k" := (bind c (fun x => k))
  (at level 20, c at level 99, k at level 200, right associativity)
  : io_scope.
Notation "c ;; k" := (bind c (fun _ => k))
  (at level 100, k at level 200, right associativity) : io_scope.
Local Open Scope io_scope.

Definition get_fs : io (gmap path node) := fun w => (Ok (fs w), w).
Definition put_fs (f : gmap path node) : io unit :=
  fun w => (Ok tt, set_fs w f).

(** ** [os], [shutil], [subprocess], [datetime], [warnings] *)

Module OS.

Definition parent (p : path) : path := removelast p.

Definition basename (p : path) : string := List.last p EmptyString.

(** [os.path.join(a, b)] for a relative one-component [b]. *)
Definition path_join (a : path) (b : string) : path := (a ++ [b])%list.

(** [os.path.exists]: the root always exists. *)
Definition path_exists (f : gmap path node) (p : path) : bool :=
  match p with
  | [] => true
  | _ => match f !! p with Some _ => true | None => false end
  end.

(** [os.path.isdir] *)
Definition path_isdir (f : gmap path node) (p : path) : bool :=
  match p with
  | [] => true
  | _ => match f !! p with Some Dir => true | _ => false end
  end.

(** [os.mkdir(p)] *)
Definition mkdir (p : path) : io unit :=
  f <- get_fs ;;
  if path_exists f p then raise FileExistsError
  else if path_isdir f (parent p) then put_fs (<[p := Dir]> f)
  else if path_exists f (parent p) then raise NotADirectoryError
  else raise FileNotFoundError.

(** [os.makedirs(name)] with [exist_ok=False]; the argument is the
    reversed path, so that the recursion on the head of the path is
    structural:
<<
    head, tail = path.split(name)
    if head and tail and not path.exists(head):
        try: makedirs(head, exist_ok=exist_ok)
        except FileExistsError: pass
    mkdir(name, mode)
>> *)
Fixpoint makedirs_rev (rname : list string) : io unit :=
  match rname with
  | [] => raise FileExistsError
  | _ :: rhead =>
      f <- get_fs ;;
      (match rhead with
       | [] => ret tt
       | _ => if path_exists f (rev rhead) then ret tt
              else try_pass FileExistsError (makedirs_rev rhead)
       end) ;;
      mkdir (rev rname)
  end.

Definition makedirs (name : path) : io unit := makedirs_rev (rev name).

(** [open(p, "w")] / [open(p, "wb")]: creates or truncates the file; the
    parent must be a directory.  [empty] is the content of the fresh
    file. *)
Definition open_w (p : path) (empty : node) : io unit :=
  f <- get_fs ;;
  if path_isdir f p then raise IsADirectoryError
  else if path_isdir f (parent p) then put_fs (<[p := empty]> f)
  else if path_exists f (parent p) then raise NotADirectoryError
  else raise FileNotFoundError.

(** [f.write(content)] on a file opened by [open_w]. *)
Definition write (p : path) (content : node) : io unit :=
  f <- get_fs ;; put_fs (<[p := content]> f).

(** [open(p, "r").read()] *)
Definition read_text (p : path) : io string :=
  f <- get_fs ;;
  if path_isdir f p then raise IsADirectoryError
  else match f !! p with
       | None => raise FileNotFoundError
       | Some (Text s) => ret s
       | Some _ => raise UnicodeDecodeError
       end.

(** [shutil.copy(src, dst)]: into [dst] when it is a directory. *)
Definition shutil_copy (src dst : path) : io path :=
  f <- get_fs ;;
  let dst' := if path_isdir f dst then path_join dst (basename src)
              else dst in
  if bool_decide (src = dst') then raise SameFileError
  else if path_isdir f src then raise IsADirectoryError
  else match f !! src with
       | None => raise FileNotFoundError
       | Some content =>
           open_w dst' Truncated ;; write dst' content ;; ret dst'
       end.

(** [subprocess.Popen(["git", "rev-parse", "--short", "HEAD"], ...)]
    followed by [communicate()] and [decode("utf-8")] of the standard
    output.  [Popen] raises when the executable is not found; the exit
    status of a process that ran is not looked at. *)
Definition git_rev_parse_short_HEAD : io string :=
  fun w =>
    match git w with
    | GitMissing => (Raise FileNotFoundError, w)
    | GitRan stdout _ => (Ok stdout, w)
    end.

(** [datetime.now()] *)
Definition datetime_now : io datetime := fun w => (Ok (now w), w).

Definition pad2 (n : nat) : string :=
  if (n <? 10)%nat then "0" +:+ pretty n else pretty n.

Definition month_abbr (m : nat) : string :=
  nth (m - 1)%nat
    ["Jan"; "Feb"; "Mar"; "Apr"; "May"; "Jun";
     "Jul"; "Aug"; "Sep"; "Oct"; "Nov"; "Dec"] EmptyString.

(** [datetime.strftime(d, "%d-%b-%Y-%H:%M:%S")] *)
Definition strftime (d : datetime) : string :=
  pad2 (day d) +:+ "-" +:+ month_abbr (month d) +:+ "-" +:+ pretty (year d)
  +:+ "-" +:+ pad2 (hour d) +:+ ":" +:+ pad2 (minute d)
  +:+ ":" +:+ pad2 (second d).

(** [warnings.warn(msg)]: the warning is recorded and execution goes on. *)
Definition warnings_warn (msg : string) : io unit :=
  fun w => (Ok tt, add_warning w msg).

End OS.

(** ** [torch] *)

Module Torch.

(** A network is a leaf module with its named parameters, or an
    [nn.DataParallel] wrapper around a module (its attribute [module]). *)
Inductive nn_Module :=
| Net (parameters : gmap string value)
| DataParallel (module : nn_Module).

Record Optimizer := {
  param_groups : list nat;
  state : gmap string value
}.

Definition shape (v : value) : option nat :=
  match v with
  | Tensor data => Some (length data)
  | Closure => None
  end.

(** [module.state_dict(prefix=prefix)]: a module contributes its own
    parameters under [prefix]; a wrapper recurses into its child
    [module] with the prefix extended by [module.]. *)
Fixpoint state_dict_at (prefix : string) (m : nn_Module)
  : gmap string value :=
  match m with
  | Net parameters => kmap (String.app prefix) parameters
  | DataParallel module => state_dict_at (prefix +:+ "module.") module
  end.

(** [nn.Module.state_dict()] *)
Definition state_dict (m : nn_Module) : gmap string value :=
  state_dict_at EmptyString m.

(** The copy done by [load_state_dict]: every own parameter [name] takes
    the entry [sd[prefix + name]]; a wrapper recurses into [module]. *)
Fixpoint load_from_state_dict (prefix : string) (m : nn_Module)
    (sd : gmap string value) : nn_Module :=
  match m with
  | Net parameters =>
      Net (map_imap
             (fun name old => Some (default old (sd !! (prefix +:+ name))))
             parameters)
  | DataParallel module =>
      DataParallel (load_from_state_dict (prefix +:+ "module.") module sd)
  end.

(** [nn.Module.load_state_dict(sd)] with [strict=True]: the keys and the
    shapes of [sd] must be those of the module's own state dict,
    otherwise [RuntimeError]; then every entry is copied in. *)
Definition load_state_dict (m : nn_Module) (c : component)
  : result nn_Module :=
  match c with
  | ModelState sd =>
      if bool_decide (shape <$> sd = shape <$> state_dict m)
      then Ok (load_from_state_dict EmptyString m sd)
      else Raise RuntimeError
  | OptimState _ => Raise RuntimeError
  end.

(** [Optimizer.state_dict()] *)
Definition optimizer_state_dict (o : Optimizer) : optim_state :=
  {| sd_param_groups := param_groups o; sd_state := state o |}.

(** [Optimizer.load_state_dict(sd)]: [ValueError] when the parameter
    groups of [sd] do not have the sizes of the optimizer's own. *)
Definition optimizer_load_state_dict (o : Optimizer) (c : component)
  : result Optimizer :=
  match c with
  | OptimState od =>
      if bool_decide (sd_param_groups od = param_groups o)
      then Ok {| param_groups := param_groups o; state := sd_state od |}
      else Raise ValueError
  | ModelState _ => Raise KeyError
  end.

Definition picklable (v : value) : bool :=
  match v with Tensor _ => true | Closure => false end.

Definition picklable_component (c : component) : bool :=
  match c with
  | ModelState sd =>
      bool_decide (map_Forall (fun _ v => picklable v = true) sd)
  | OptimState od =>
      bool_decide (map_Forall (fun _ v => picklable v = true) (sd_state od))
  end.

(** [torch.save(obj, f)]: opens [f] for writing, which creates or
    truncates it, then pickles [obj] into it.  When an entry cannot be
    pickled the exception leaves the opened file behind, incomplete. *)
Definition save (obj : gmap string component) (f : path) : io unit :=
  OS.open_w f Truncated ;;
  if bool_decide (map_Forall (fun _ c => picklable_component c = true) obj)
  then OS.write f (Pickled obj)
  else raise PicklingError.

(** [torch.load(f)] *)
Definition load (f : path) : io (gmap string component) :=
  fs <- get_fs ;;
  if OS.path_isdir fs f then raise IsADirectoryError
  else match fs !! f with
       | None => raise FileNotFoundError
       | Some (Pickled obj) => ret obj
       | Some _ => raise UnpicklingError
       end.

End Torch.

(** [d[k]] on a Python dict *)
Definition dict_getitem {V} (d : gmap string V) (k : string) : io V :=
  match d !! k with
  | Some v => ret v
  | None => raise KeyError
  end.

(** Lifts a pure computation that may raise. *)
Definition lift {A} (r : result A) : io A := fun w => (r, w).

(** ** [tbd/utils/checkpointing.py] *)

Module Checkpointing.
Import Torch.

Definition create_checkpoint_dir (save_dirpath config_ymlpath : path)
  : io path :=
  (* create a fresh directory based on timestamp, inside save_dirpath *)
  d <- OS.datetime_now ;;
  let save_datetime := OS.strftime d in
  let checkpoint_dirpath := OS.path_join save_dirpath save_datetime in
  OS.makedirs checkpoint_dirpath ;;
  (* copy over currently used config file inside this directory *)
  OS.shutil_copy config_ymlpath checkpoint_dirpath ;;
  (* save current git commit hash in this checkpoint directory *)
  commit_sha <- OS.git_rev_parse_short_HEAD ;;
  let commit_sha_file := OS.path_join checkpoint_dirpath "commit_sha.txt" in
  OS.open_w commit_sha_file (Text EmptyString) ;;
  OS.write commit_sha_file (Text (Str.strip_sha commit_sha)) ;;
  ret checkpoint_dirpath.

(** [f"model_{iteration}.pth"] *)
Definition checkpoint_name (iteration : Z) : string :=
  "model_" +:+ pretty iteration +:+ ".pth".

Definition save_checkpoint (checkpoint_dirpath : path) (iteration : Z)
    (model : nn_Module) (optimizer : Optimizer) : io unit :=
  let model_state_dict :=
    match model with
    | DataParallel module => state_dict module
    | _ => state_dict model
    end in
  Torch.save
    {[ "model" := ModelState model_state_dict;
       "optimizer" := OptimState (optimizer_state_dict optimizer) ]}
    (OS.path_join checkpoint_dirpath (checkpoint_name iteration)).

Definition mismatch_message (current_commit_sha checkpoint_commit_sha : string)
  : string :=
  "Current commit (" +:+ current_commit_sha +:+ ") and the commit ("
  +:+ checkpoint_commit_sha +:+ ") from which checkpoint was saved,"
  +:+ " are different. This might affect reproducibility and results.".

(** The model and the optimizer are Python objects updated in place and
    returned; here the call returns their new values. *)
Definition load_checkpoint (checkpoint_dirpath : path) (iteration : Z)
    (model : nn_Module) (optimizer : option Optimizer)
  : io (nn_Module * option Optimizer) :=
  (* verify commit sha, raise warning if it doesn't match *)
  out <- OS.git_rev_parse_short_HEAD ;;
  let current_commit_sha := Str.strip_sha out in
  txt <- OS.read_text (OS.path_join checkpoint_dirpath "commit_sha.txt") ;;
  let checkpoint_commit_sha := Str.strip_sha txt in
  (if bool_decide (current_commit_sha <> checkpoint_commit_sha)
   then OS.warnings_warn
          (mismatch_message current_commit_sha checkpoint_commit_sha)
   else ret tt) ;;
  (* derive checkpoint name / path from the iteration number *)
  let checkpoint_pthpath :=
    OS.path_join checkpoint_dirpath (checkpoint_name iteration) in
  (* load encoder, decoder, optimizer state_dicts *)
  components <- Torch.load checkpoint_pthpath ;;
  model' <-
    (match model with
     | DataParallel module =>
         c <- dict_getitem components "model" ;;
         module' <- lift (load_state_dict module c) ;;
         ret (DataParallel module')
     | _ =>
         c <- dict_getitem components "model" ;;
         lift (load_state_dict model c)
     end) ;;
  optimizer' <-
    (match optimizer with
     | Some o =>
         c <- dict_getitem components "optimizer" ;;
         o' <- lift (optimizer_load_state_dict o c) ;;
         ret (Some o')
     | None => ret None
     end) ;;
  ret (model', optimizer').

End Checkpointing.

(** ** [numpy] and [h5py] *)

Module Numpy.

Definition row_size (r : row) : Z :=
  match r with
  | Scalar _ => 1
  | Vector zs => Z.of_nat (length zs)
  end.

(** What looking up an attribute of an object gives: a plain [int], or a
    method bound to the object. *)
Inductive attribute :=
| IntValue (n : Z)
| BoundMethod (f : list Z -> result Z).

(** [a(args)]: an [int] is not callable. *)
Definition call (a : attribute) (args : list Z) : result Z :=
  match a with
  | BoundMethod f => f args
  | IntValue _ => Raise TypeError
  end.

(** [ndarray.size]: an [int], the number of elements of the array. *)
Definition size (a : ndarray) : attribute :=
  IntValue (fold_right Z.add 0 (map row_size a)).

(** An index expression [a[index]]: an integer, or [start:stop:step]
    with any part left out. *)
Inductive index :=
| Int (i : Z)
| Slice (start stop step : option Z).

(** [a[i]] along axis 0: negative indices count from the end. *)
Definition getitem_int (a : ndarray) (i : Z) : result row :=
  let n := Z.of_nat (length a) in
  if (- n <=? i) && (i <? n) then
    match a !! Z.to_nat (if i <? 0 then i + n else i) with
    | Some r => Ok r
    | None => Raise IndexError
    end
  else Raise IndexError.

(** [slice(start, stop, step).indices(len)] *)
Definition slice_indices (start stop step : option Z) (len : Z)
  : result (Z * Z * Z) :=
  let step' := default 1 step in
  if step' =? 0 then Raise ValueError
  else
    let neg := step' <? 0 in
    let lower := if neg then -1 else 0 in
    let upper := if neg then len - 1 else len in
    let adjust (x : option Z) (dflt : Z) :=
      match x with
      | None => dflt
      | Some v => if v <? 0 then Z.max (v + len) lower else Z.min v upper
      end in
    Ok (adjust start (if neg then upper else lower),
        adjust stop (if neg then lower else upper),
        step').

(** [len(range(start, stop, step))] for a non-zero [step] *)
Definition range_len (start stop step : Z) : Z :=
  if 0 <? step then
    if start <? stop then (stop - start - 1) / step + 1 else 0
  else
    if stop <? start then (start - stop - 1) / (- step) + 1 else 0.

(** [list(range(start, stop, step))] *)
Definition range (start stop step : Z) : list Z :=
  map (fun k => start + Z.of_nat k * step)
      (seq 0 (Z.to_nat (range_len start stop step))).

(** [a[start:stop:step]] along axis 0: never out of range. *)
Definition getitem_slice (a : ndarray) (start stop step : option Z)
  : result ndarray :=
  match slice_indices start stop step (Z.of_nat (length a)) with
  | Raise e => Raise e
  | Ok (lo, hi, st) =>
      Ok (omap (fun i => a !! Z.to_nat i) (range lo hi st))
  end.

End Numpy.

Module H5py.

(** [h5py.File(path, "r")] *)
Definition File (p : path) : io hdf_file :=
  f <- get_fs ;;
  match f !! p with
  | Some (Hdf5 h) => ret h
  | _ => raise OSError
  end.

(** [file[name][:]] reads the whole dataset into memory. *)
Definition dataset (h : hdf_file) (name : string) : io ndarray :=
  dict_getitem (datasets h) name.

(** [file.attrs[name]] *)
Definition attr (h : hdf_file) (name : string) : io string :=
  dict_getitem (attrs h) name.

End H5py.

(** ** [tbd/data/readers.py] *)

Module Readers.
Import Numpy.

(** The attributes [__init__] binds on [self]. *)
Record ClevrTokensReader := {
  programs : ndarray;
  questions : ndarray;
  answers : ndarray;
  image_indices : ndarray;
  _split : string
}.

Definition __init__ (tokens_hdfpath : path) : io ClevrTokensReader :=
  clevr_tokens <- H5py.File tokens_hdfpath ;;
  programs <- H5py.dataset clevr_tokens "programs" ;;
  questions <- H5py.dataset clevr_tokens "questions" ;;
  answers <- H5py.dataset clevr_tokens "answers" ;;
  image_indices <- H5py.dataset clevr_tokens "image_indices" ;;
  split <- H5py.attr clevr_tokens "split" ;;
  ret {| programs := programs; questions := questions; answers := answers;
         image_indices := image_indices; _split := split |}.

Definition __len__ (self : ClevrTokensReader) : result Z :=
  call (size (image_indices self)) [0].

(** The dict [{"program": .., "question": .., "answer": ..,
    "image_index": ..}] *)
Record instance := {
  program : row;
  question : row;
  answer : row;
  image_index : row
}.

(** [zip(program, question, answer, image_index)] into instances: stops
    at the shortest. *)
Fixpoint zip_instances (ps qs ans iis : ndarray) : list instance :=
  match ps, qs, ans, iis with
  | p :: ps', q :: qs', a :: ans', ii :: iis' =>
      {| program := p; question := q; answer := a; image_index := ii |}
      :: zip_instances ps' qs' ans' iis'
  | _, _, _, _ => []
  end.

Inductive item :=
| Single (i : instance)
| Batch (l : list instance).

Definition rbind {A B} (r : result A) (k : A -> result B) : result B :=
  match r with
  | Ok a => k a
  | Raise e => Raise e
  end.

Definition __getitem__ (self : ClevrTokensReader) (index : Numpy.index)
  : result item :=
  match index with
  | Slice start stop step =>
      rbind (getitem_slice (programs self) start stop step) (fun program =>
      rbind (getitem_slice (questions self) start stop step) (fun question =>
      rbind (getitem_slice (answers self) start stop step) (fun answer =>
      rbind (getitem_slice (image_indices self) start stop step)
        (fun image_index =>
      (* return list of single instances if a slice *)
      Ok (Batch (zip_instances program question answer image_index))))))
  | Int i =>
      rbind (getitem_int (programs self) i) (fun program =>
      rbind (getitem_int (questions self) i) (fun question =>
      rbind (getitem_int (answers self) i) (fun answer =>
      rbind (getitem_int (image_indices self) i) (fun image_index =>
      Ok (Single {| program := program; question := question;
                    answer := answer; image_index := image_index |})))))
  end.

(** The property [split] *)
Definition split (self : ClevrTokensReader) : string := _split self.

(** What an attribute of a reader evaluates to. *)
Inductive member :=
| Array (a : ndarray)
| Str (s : string)
| Len (r : result Z)
| GetItem (f : Numpy.index -> result item).

(** [getattr(self, name)]: the names bound by [__init__] and by the class
    body; any other name raises [AttributeError]. *)
Definition getattr (self : ClevrTokensReader) (name : string)
  : result member :=
  if String.eqb name "programs" then Ok (Array (programs self))
  else if String.eqb name "questions" then Ok (Array (questions self))
  else if String.eqb name "answers" then Ok (Array (answers self))
  else if String.eqb name "image_indices"
       then Ok (Array (image_indices self))
  else if String.eqb name "_split" then Ok (Str (_split self))
  else if String.eqb name "split" then Ok (Str (split self))
  else if String.eqb name "__len__" then Ok (Len (__len__ self))
  else if String.eqb name "__getitem__" then Ok (GetItem (__getitem__ self))
  else Raise AttributeError.

End Readers.

(** * Vocabulary of the statements *)

Section vocabulary.
Import Torch Checkpointing.

(** The module whose state [save_checkpoint] stores and into which
    [load_checkpoint] restores: [model.module] for a wrapper, the model
    itself otherwise. *)
Definition underlying (m : nn_Module) : nn_Module :=
  match m with
  | DataParallel module => module
  | _ => m
  end.

Definition wrap (parallel : bool) (m : nn_Module) : nn_Module :=
  if parallel then DataParallel m else m.

(** The dict a call of [save_checkpoint] hands to [torch.save]. *)
Definition artifact (model : nn_Module) (optimizer : Optimizer)
  : gmap string component :=
  {[ "model" := ModelState (state_dict (underlying model));
     "optimizer" := OptimState (optimizer_state_dict optimizer) ]}.

Definition artifact_path (dir : path) (iteration : Z) : path :=
  OS.path_join dir (checkpoint_name iteration).

Definition sidecar_path (dir : path) : path :=
  OS.path_join dir "commit_sha.txt".

(** A session directory as [create_checkpoint_dir] leaves it: a directory
    holding the recorded commit. *)
Definition is_session (w : world) (dir : path) (recorded : string) : Prop :=
  OS.path_isdir (fs w) dir = true
  /\ fs w !! sidecar_path dir = Some (Text recorded).

Definition picklable_state (sd : gmap string value) : Prop :=
  map_Forall (fun _ v => picklable v = true) sd.

(** The world [load_checkpoint] leaves: the warning is recorded exactly
    when the two commits, once normalised, differ. *)
Definition after_check (w : world) (out recorded : string) : world :=
  if bool_decide (Str.strip_sha out <> Str.strip_sha recorded)
  then add_warning w (mismatch_message (Str.strip_sha out)
                                       (Str.strip_sha recorded))
  else w.

Definition restored_optimizer (o : Optimizer) (od : optim_state)
  : Optimizer :=
  {| param_groups := param_groups o; state := sd_state od |}.

End vocabulary.

Section reader_vocabulary.
Import Readers.

(** The cross-section of the four arrays at row [k]. *)
Definition row_at (self : ClevrTokensReader) (k : nat) : option instance :=
  p ← programs self !! k;
  q ← questions self !! k;
  a ← answers self !! k;
  ii ← image_indices self !! k;
  Some {| program := p; question := q; answer := a; image_index := ii |}.

(** Where a slice bound [v] lands on an axis of [n] rows: a negative
    bound counts from the end, and the result is cut to [0..n]. *)
Definition clamp (n v : Z) : Z :=
  if v <? 0 then Z.max (v + n) 0 else Z.min v n.

(** [i] is a valid integer index into [a]. *)
Definition in_range (a : ndarray) (i : Z) : Prop :=
  - Z.of_nat (length a) <= i < Z.of_nat (length a).

(** The row of [a] an integer index [i] denotes: a negative index counts
    from the end of [a]. *)
Definition position (a : ndarray) (i : Z) : nat :=
  Z.to_nat (if i <? 0 then i + Z.of_nat (length a) else i).

End reader_vocabulary.

(** * Sample data *)

Module Sample.
Import Torch.
Local Open Scope string_scope.

Definition clock : datetime :=
  {| year := 2019; month := 3; day := 7;
     hour := 9; minute := 5; second := 0 |}.

Definition base_fs : gmap path node :=
  {[ ["runs"] := Dir; ["cfg.yml"] := Text "lr: 0.1" ]}.

(** Inside a work tree: git prints the short hash and a line feed. *)
Definition fresh : world :=
  {| fs := base_fs;
     git := GitRan ("abc1234" +:+ String Str.newline EmptyString) 0;
     now := clock; warnings := [] |}.

(** Outside a work tree: git prints nothing on its standard output and
    exits with status 128. *)
Definition not_a_repo : world :=
  {| fs := base_fs; git := GitRan EmptyString 128;
     now := clock; warnings := [] |}.


Definition session_dir : path := ["runs"; "07-Mar-2019-09:05:00"].

Definition session_fs : gmap path node :=
  <[ OS.path_join session_dir "commit_sha.txt" := Text "abc1234" ]>
    (<[ OS.path_join session_dir "cfg.yml" := Text "lr: 0.1" ]>
       (<[ session_dir := Dir ]> base_fs)).

(** A session created at commit [abc1234]. *)
Definition session : world :=
  {| fs := session_fs;
     git := GitRan ("abc1234" +:+ String Str.newline EmptyString) 0;
     now := clock; warnings := [] |}.

(** The same session, resumed after the work tree moved to [def4567]. *)
Definition moved_on : world :=
  {| fs := <[ OS.path_join session_dir "model_3.pth" :=
                Pickled {[ "model" := ModelState
                                        {[ "w" := Tensor [1; 2];
                                           "b" := Tensor [3] ]};
                           "optimizer" := OptimState
                                        {| sd_param_groups := [2%nat];
                                           sd_state :=
                                             {[ "lr" := Tensor [1] ]} |} ]}
           ]> session_fs;
     git := GitRan ("def4567" +:+ String Str.newline EmptyString) 0;
     now := clock; warnings := [] |}.

Definition trained : gmap string value :=
  {[ "w" := Tensor [1; 2]; "b" := Tensor [3] ]}.

Definition retrained : gmap string value :=
  {[ "w" := Tensor [5; 8]; "b" := Tensor [13] ]}.

Definition blank : gmap string value :=
  {[ "w" := Tensor [0; 0]; "b" := Tensor [0] ]}.

Definition sgd : Optimizer :=
  {| param_groups := [2%nat]; state := {[ "lr" := Tensor [1] ]} |}.

Definition sgd_later : Optimizer :=
  {| param_groups := [2%nat]; state := {[ "lr" := Tensor [7] ]} |}.

Definition sgd_blank : Optimizer :=
  {| param_groups := [2%nat]; state := ∅ |}.

(** An optimizer whose parameter group keeps a lambda. *)
Definition sgd_with_lambda : Optimizer :=
  {| param_groups := [2%nat];
     state := {[ "lr" := Tensor [1]; "schedule" := Closure ]} |}.

(** A tokens file of ten rows. *)
Definition tokens : hdf_file :=
  {| datasets :=
       {[ "programs" := (fun k => Vector [k; 10 + k]) <$> seqZ 0 10;
          "questions" := (fun k => Vector [100 + k; 7; k]) <$> seqZ 0 10;
          "answers" := (fun k => Scalar (k `mod` 2)) <$> seqZ 0 10;
          "image_indices" := (fun k => Scalar (k / 2)) <$> seqZ 0 10 ]};
     attrs := {[ "split" := "train" ]} |}.

(** The same file with the last row of [questions] missing. *)
Definition ragged_tokens : hdf_file :=
  {| datasets :=
       {[ "programs" := (fun k => Vector [k; 10 + k]) <$> seqZ 0 10;
          "questions" := (fun k => Vector [100 + k; 7; k]) <$> seqZ 0 9;
          "answers" := (fun k => Scalar (k `mod` 2)) <$> seqZ 0 10;
          "image_indices" := (fun k => Scalar (k / 2)) <$> seqZ 0 10 ]};
     attrs := {[ "split" := "train" ]} |}.

Definition disk : world :=
  {| fs := {[ ["data"] := Dir;
              ["data"; "train.h5"] := Hdf5 tokens;
              ["data"; "ragged.h5"] := Hdf5 ragged_tokens ]};
     git := GitMissing; now := clock; warnings := [] |}.

(** The reader [ClevrTokensReader("data/train.h5")] *)
Definition reader : Readers.ClevrTokensReader :=
  {| Readers.programs := (fun k => Vector [k; 10 + k]) <$> seqZ 0 10;
     Readers.questions := (fun k => Vector [100 + k; 7; k]) <$> seqZ 0 10;
     Readers.answers := (fun k => Scalar (k `mod` 2)) <$> seqZ 0 10;
     Readers.image_indices := (fun k => Scalar (k / 2)) <$> seqZ 0 10;
     Readers._split := "train" |}.

(** The reader [ClevrTokensReader("data/ragged.h5")] *)
Definition ragged_reader : Readers.ClevrTokensReader :=
  {| Readers.programs := (fun k => Vector [k; 10 + k]) <$> seqZ 0 10;
     Readers.questions := (fun k => Vector [100 + k; 7; k]) <$> seqZ 0 9;
     Readers.answers := (fun k => Scalar (k `mod` 2)) <$> seqZ 0 10;
     Readers.image_indices := (fun k => Scalar (k / 2)) <$> seqZ 0 10;
     Readers._split := "train" |}.

(** The sample session holding, for iteration 5, an artifact written
    without an optimizer entry. *)
Definition model_only : world :=
  {| fs := <[ OS.path_join session_dir "model_5.pth" :=
                Pickled {[ "model" := ModelState
                                        {[ "w" := Tensor [1; 2];
                                           "b" := Tensor [3] ]} ]}
           ]> session_fs;
     git := GitRan ("abc1234" +:+ String Str.newline EmptyString) 0;
     now := clock; warnings := [] |}.

(** A network with one parameter less than the trained one. *)
Definition smaller : gmap string value :=
  {[ "w" := Tensor [0; 0] ]}.

(** A reader over a file whose [programs] dataset has no row. *)
Definition empty_reader : Readers.ClevrTokensReader :=
  {| Readers.programs := [];
     Readers.questions := (fun k => Vector [100 + k; 7; k]) <$> seqZ 0 10;
     Readers.answers := (fun k => Scalar (k `mod` 2)) <$> seqZ 0 10;
     Readers.image_indices := (fun k => Scalar (k / 2)) <$> seqZ 0 10;
     Readers._split := "train" |}.

End Sample.

(** * Properties *)

(** ** Strings and paths *)

Lemma string_length_app (s t : string) :
  String.length (s +:+ t) = (String.length s + String.length t)%nat.
Proof.
  induction s as [|c s IH]; [done|].
  change (S (String.length (s +:+ t))
          = S (String.length s + String.length t)).
  by rewrite IH.
Qed.

Lemma string_app_inv_tail (s1 s2 t : string) :
  s1 +:+ t = s2 +:+ t -> s1 = s2.
Proof.
  revert s2. induction s1 as [|c s1 IH]; intros [|d s2] E.
  - reflexivity.
  - apply (f_equal String.length) in E.
    rewrite !string_length_app in E. simpl in E. lia.
  - apply (f_equal String.length) in E.
    rewrite !string_length_app in E. simpl in E. lia.
  - injection E as -> E. f_equal. by apply IH.
Qed.

Lemma checkpoint_name_inj (i j : Z) :
  Checkpointing.checkpoint_name i = Checkpointing.checkpoint_name j -> i = j.
Proof.
  unfold Checkpointing.checkpoint_name. intros E.
  apply (inj (String.app "model_")) in E.
  apply string_app_inv_tail in E.
  by apply (inj pretty) in E.
Qed.

Lemma path_join_nonempty (a : path) (b : string) : OS.path_join a b <> [].
Proof. unfold OS.path_join. by destruct a. Qed.

Lemma parent_path_join (a : path) (b : string) :
  OS.parent (OS.path_join a b) = a.
Proof. apply removelast_last. Qed.

Lemma path_isdir_file (f : gmap path node) (p : path) (n : node) :
  f !! p = Some n -> n <> Dir -> p <> [] -> OS.path_isdir f p = false.
Proof.
  intros Hp Hn Hne. unfold OS.path_isdir. destruct p; [done|].
  rewrite Hp. by destruct n.
Qed.

Lemma path_isdir_join_absent (f : gmap path node) (a : path) (b : string) :
  f !! OS.path_join a b = None -> OS.path_isdir f (OS.path_join a b) = false.
Proof.
  intros Hp. unfold OS.path_isdir.
  destruct (OS.path_join a b) eqn:E; [by apply path_join_nonempty in E|].
  by rewrite Hp.
Qed.

(** ** State dicts *)

Section state_dicts.
Import Torch.

Lemma state_dict_Net (p : gmap string value) : state_dict (Net p) = p.
Proof.
  unfold state_dict. simpl. apply map_eq. intros k.
  change k with (String.app EmptyString k) at 1.
  by rewrite (lookup_kmap (String.app EmptyString)).
Qed.

(** Loading a state dict that passes the strict check makes the module's
    own state dict equal to it, at every prefix. *)
Lemma state_dict_load_from (m : nn_Module) :
  forall (prefix : string) (sd : gmap string value),
    shape <$> sd = shape <$> state_dict_at prefix m ->
    state_dict_at prefix (load_from_state_dict prefix m sd) = sd.
Proof.
  induction m as [p | m IH]; intros prefix sd Hshape; simpl in *.
  - apply map_eq. intros k.
    assert (Hk : shape <$> sd !! k
                 = shape <$> (kmap (String.app prefix) p
                              : gmap string value) !! k).
    { by rewrite <- !lookup_fmap, Hshape. }
    match goal with |- ?lhs = _ => destruct lhs as [v|] eqn:E end.
    + apply (lookup_kmap_Some (String.app prefix)) in E
        as (name & -> & E).
      rewrite map_lookup_imap in E.
      rewrite (lookup_kmap (String.app prefix)) in Hk.
      destruct (p !! name) as [old|] eqn:Ep; simpl in *; [|done].
      destruct (sd !! (prefix +:+ name)) as [new|]; simpl in *; [|done].
      congruence.
    + destruct (sd !! k) as [new|] eqn:Es; [|done]. exfalso.
      destruct ((kmap (String.app prefix) p : gmap string value) !! k)
        as [old|] eqn:Ek; simpl in Hk; [|done].
      apply (lookup_kmap_Some (String.app prefix)) in Ek
        as (name & -> & Ek).
      rewrite (lookup_kmap (String.app prefix)), map_lookup_imap, Ek in E.
      done.
  - by apply IH.
Qed.

Lemma load_state_dict_Ok (m : nn_Module) (sd : gmap string value) :
  shape <$> sd = shape <$> state_dict m ->
  exists m', load_state_dict m (ModelState sd) = Ok m'
             /\ state_dict m' = sd.
Proof.
  intros Hshape. eexists. split.
  - unfold load_state_dict. by rewrite bool_decide_eq_true_2.
  - by apply state_dict_load_from.
Qed.

Lemma load_state_dict_Net (p sd : gmap string value) :
  shape <$> sd = shape <$> p ->
  load_state_dict (Net p) (ModelState sd) = Ok (Net sd).
Proof.
  intros Hshape.
  destruct (load_state_dict_Ok (Net p) sd) as (m' & E & Hsd).
  { by rewrite state_dict_Net. }
  rewrite E. f_equal.
  unfold load_state_dict in E. rewrite state_dict_Net in E.
  rewrite bool_decide_eq_true_2 in E by done.
  injection E as <-. simpl in *. rewrite state_dict_Net in Hsd. by f_equal.
Qed.

End state_dicts.

(** ** Running [save_checkpoint] and [load_checkpoint] *)

Section runs.
Import Torch Checkpointing.

Lemma picklable_Closure (v : value) : picklable v = false <-> v = Closure.
Proof. destruct v; simpl; split; congruence. Qed.

Lemma artifact_picklable (model : nn_Module) (optimizer : Optimizer) :
  map_Forall (fun _ c => picklable_component c = true)
             (artifact model optimizer)
  <-> picklable_state (state_dict (underlying model))
      /\ picklable_state (state optimizer).
Proof.
  unfold artifact, picklable_state.
  rewrite map_Forall_insert by done.
  rewrite map_Forall_singleton. simpl.
  by rewrite !bool_decide_eq_true.
Qed.

Lemma artifact_path_not_dir (f : gmap path node) (dir : path) (it : Z) :
  f !! artifact_path dir it <> Some Dir ->
  OS.path_isdir f (artifact_path dir it) = false.
Proof.
  intros Hn. unfold OS.path_isdir.
  destruct (artifact_path dir it) eqn:E;
    [by apply path_join_nonempty in E|].
  destruct (f !! (s :: l)) as [[]|]; done.
Qed.

(** What a call of [save_checkpoint] does in a directory that exists. *)
Lemma save_checkpoint_run (w : world) (dir : path) (it : Z)
    (model : nn_Module) (optimizer : Optimizer) :
  OS.path_isdir (fs w) dir = true ->
  fs w !! artifact_path dir it <> Some Dir ->
  save_checkpoint dir it model optimizer w =
    if bool_decide (map_Forall (fun _ c => picklable_component c = true)
                               (artifact model optimizer))
    then (Ok tt,
          set_fs w (<[artifact_path dir it :=
                        Pickled (artifact model optimizer)]> (fs w)))
    else (Raise PicklingError,
          set_fs w (<[artifact_path dir it := Truncated]> (fs w))).
Proof.
  intros Hdir Hfile.
  assert (save_checkpoint dir it model optimizer
          = Torch.save (artifact model optimizer) (artifact_path dir it))
    as -> by (by destruct model).
  unfold Torch.save, OS.open_w, OS.write, bind, get_fs, put_fs, raise.
  rewrite artifact_path_not_dir by done.
  unfold artifact_path at 1. rewrite parent_path_join, Hdir. simpl.
  case_bool_decide; [|done].
  unfold set_fs. simpl. by rewrite insert_insert_eq.
Qed.

Lemma sidecar_is_not_artifact (dir : path) (it : Z) :
  sidecar_path dir <> artifact_path dir it.
Proof.
  unfold sidecar_path, artifact_path, OS.path_join. intros E.
  apply app_inv_head in E. by injection E.
Qed.

(** What a call of [load_checkpoint] does on a readable artifact whose
    entries fit the targets. *)
Lemma load_checkpoint_run (w : world) (dir : path) (it : Z)
    (target : nn_Module) (otarget : option Optimizer)
    (recorded out : string) (rc : Z)
    (comps : gmap string component) (sd : gmap string value)
    (od : optim_state) :
  git w = GitRan out rc ->
  fs w !! sidecar_path dir = Some (Text recorded) ->
  fs w !! artifact_path dir it = Some (Pickled comps) ->
  comps !! "model" = Some (ModelState sd) ->
  shape <$> sd = shape <$> state_dict (underlying target) ->
  (forall o, otarget = Some o ->
     comps !! "optimizer" = Some (OptimState od)
     /\ sd_param_groups od = param_groups o) ->
  exists model',
    load_checkpoint dir it target otarget w
    = (Ok (model', (fun o => restored_optimizer o od) <$> otarget),
       after_check w out recorded)
    /\ state_dict (underlying model') = sd
    /\ (forall t, target = DataParallel t ->
                   exists t', load_state_dict t (ModelState sd) = Ok t'
                              /\ model' = DataParallel t')
    /\ (forall p, target = Net p -> model' = Net sd).
Proof.
  intros Hgit Hside Hart Hmodel Hshape Hopt.
  destruct (load_state_dict_Ok (underlying target) sd Hshape)
    as (m' & Hload & Hsd).
  exists (match target with DataParallel _ => DataParallel m' | _ => m' end).
  split; [|split; [|split]].
  - unfold load_checkpoint, bind at 1, OS.git_rev_parse_short_HEAD.
    rewrite Hgit.
    unfold bind at 1, OS.read_text, bind at 1, get_fs.
    fold (sidecar_path dir). fold (artifact_path dir it).
    rewrite (path_isdir_file _ _ (Text recorded)), Hside
      by (done || apply path_join_nonempty).
    unfold ret at 1. unfold bind at 1.
    assert (Hstep : (if bool_decide (Str.strip_sha out
                                     <> Str.strip_sha recorded)
                     then OS.warnings_warn
                            (mismatch_message (Str.strip_sha out)
                                              (Str.strip_sha recorded))
                     else ret tt) w
                    = (Ok tt, after_check w out recorded)).
    { unfold after_check. by case_bool_decide. }
    rewrite Hstep.
    assert (Hfs : fs (after_check w out recorded) = fs w).
    { unfold after_check. by case_bool_decide. }
    unfold bind at 1, Torch.load, bind at 1, get_fs. rewrite Hfs.
    rewrite (path_isdir_file _ _ (Pickled comps)), Hart
      by (done || apply path_join_nonempty).
    unfold ret at 1.
    assert (Hm : forall w',
      (match target with
       | DataParallel module =>
           c <- dict_getitem comps "model" ;;
           module' <- lift (load_state_dict module c) ;;
           ret (DataParallel module')
       | _ =>
           c <- dict_getitem comps "model" ;;
           lift (load_state_dict target c)
       end) w'
      = (Ok (match target with
             | DataParallel _ => DataParallel m'
             | _ => m'
             end), w')).
    { intros w'. unfold dict_getitem. rewrite Hmodel.
      destruct target; cbn [underlying] in Hload; unfold bind, ret, lift;
        by rewrite Hload. }
    unfold bind at 1. rewrite Hm.
    destruct otarget as [o|]; simpl.
    + destruct (Hopt o eq_refl) as [Hk Hg].
      unfold bind, dict_getitem, ret, lift. rewrite Hk. simpl.
      by rewrite bool_decide_eq_true_2.
    + done.
  - destruct target as [p|t]; cbn [underlying] in *; [|done].
    rewrite load_state_dict_Net in Hload by (by rewrite <- (state_dict_Net p)).
    injection Hload as <-. apply state_dict_Net.
  - intros t ->. eauto.
  - intros p ->. cbn [underlying] in *.
    rewrite load_state_dict_Net in Hload by (by rewrite <- (state_dict_Net p)).
    by injection Hload as <-.
Qed.

End runs.

(** ** Claims on the checkpoint life cycle *)

Section checkpoint_claims.
Import Torch Checkpointing.

(** C1 (round trip).  In a session directory, with git available, saving
    a model and an optimizer whose entries can be pickled and then
    loading the same iteration into targets of the same architecture
    succeeds, and leaves the targets with the state dicts that were
    saved: the state dict of the underlying module and the state dict of
    the optimizer.  The same holds for the model when no optimizer target
    is given. *)
Theorem save_load_round_trip (w : world) (dir : path) (it : Z)
    (model target : nn_Module) (optimizer otarget : Optimizer)
    (recorded out : string) (rc : Z) :
  is_session w dir recorded ->
  git w = GitRan out rc ->
  fs w !! artifact_path dir it <> Some Dir ->
  picklable_state (state_dict (underlying model)) ->
  picklable_state (state optimizer) ->
  shape <$> state_dict (underlying model)
    = shape <$> state_dict (underlying target) ->
  param_groups optimizer = param_groups otarget ->
  exists w1,
    save_checkpoint dir it model optimizer w = (Ok tt, w1)
    /\ (exists w2 model' optimizer',
          load_checkpoint dir it target (Some otarget) w1
          = (Ok (model', Some optimizer'), w2)
          /\ state_dict (underlying model')
             = state_dict (underlying model)
          /\ optimizer_state_dict optimizer'
             = optimizer_state_dict optimizer)
    /\ (exists w2 model',
          load_checkpoint dir it target None w1 = (Ok (model', None), w2)
          /\ state_dict (underlying model')
             = state_dict (underlying model)).
Proof.
  intros [Hdir Hside] Hgit Hfile Hpm Hpo Hshape Hgroups.
  set (w1 := set_fs w (<[artifact_path dir it :=
                           Pickled (artifact model optimizer)]> (fs w))).
  exists w1. split.
  { rewrite save_checkpoint_run by done.
    rewrite bool_decide_eq_true_2; [done|].
    by apply artifact_picklable. }
  assert (Hside' : fs w1 !! sidecar_path dir = Some (Text recorded)).
  { simpl. rewrite lookup_insert_ne; [done|].
    intros E. by apply (sidecar_is_not_artifact dir it). }
  split.
  - destruct (load_checkpoint_run w1 dir it target (Some otarget)
                recorded out rc (artifact model optimizer)
                (state_dict (underlying model))
                (optimizer_state_dict optimizer))
      as (model' & Hrun & Hsd & _); try done.
    { simpl. apply lookup_insert_eq. }
    { intros o [= <-]. done. }
    eexists _, model', _. split; [exact Hrun|]. split; [done|].
    unfold restored_optimizer, optimizer_state_dict. simpl.
    by rewrite Hgroups.
  - destruct (load_checkpoint_run w1 dir it target None
                recorded out rc (artifact model optimizer)
                (state_dict (underlying model))
                (optimizer_state_dict optimizer))
      as (model' & Hrun & Hsd & _); try done.
    { simpl. apply lookup_insert_eq. }
    eexists _, model'. split; [exact Hrun|done].
Qed.

(** C2 (last write wins).  Two saves of the same iteration in a session
    directory, the second with state that can be pickled: whatever the
    first save did, the second one succeeds and the file system is the
    initial one with the one artifact path bound to the dict of the
    second call, nothing of the first call being kept; the second save
    adds no file; it leaves the world a single save of the second state
    leaves; and the artifact path determines the iteration. *)
Theorem save_twice_last_write_wins (w : world) (dir : path) (it : Z)
    (model1 model2 : nn_Module) (optimizer1 optimizer2 : Optimizer) :
  OS.path_isdir (fs w) dir = true ->
  fs w !! artifact_path dir it <> Some Dir ->
  picklable_state (state_dict (underlying model2)) ->
  picklable_state (state optimizer2) ->
  exists r1 w1 w2,
    save_checkpoint dir it model1 optimizer1 w = (r1, w1)
    /\ save_checkpoint dir it model2 optimizer2 w1 = (Ok tt, w2)
    /\ fs w2 = <[artifact_path dir it :=
                   Pickled (artifact model2 optimizer2)]> (fs w)
    /\ dom (fs w2) = dom (fs w1)
    /\ save_checkpoint dir it model2 optimizer2 w = (Ok tt, w2)
    /\ (forall it', artifact_path dir it' = artifact_path dir it ->
                    it' = it).
Proof.
  intros Hdir Hfile Hpm Hpo.
  assert (Hp2 : map_Forall (fun _ c => picklable_component c = true)
                           (artifact model2 optimizer2))
    by (by apply artifact_picklable).
  assert (Hsecond : forall n, n <> Dir ->
    save_checkpoint dir it model2 optimizer2
      (set_fs w (<[artifact_path dir it := n]> (fs w)))
    = (Ok tt, set_fs w (<[artifact_path dir it :=
                            Pickled (artifact model2 optimizer2)]>
                          (fs w)))).
  { intros n Hn. rewrite save_checkpoint_run.
    - rewrite bool_decide_eq_true_2 by done.
      unfold set_fs. simpl. by rewrite insert_insert_eq.
    - simpl. unfold OS.path_isdir in *. destruct dir as [|c dir]; [done|].
      destruct (decide (artifact_path (c :: dir) it = c :: dir)) as [E|E].
      + apply (f_equal length) in E. unfold artifact_path, OS.path_join in E.
        rewrite length_app in E. simpl in E. lia.
      + by rewrite lookup_insert_ne.
    - simpl. rewrite lookup_insert_eq. congruence. }
  exists (fst (save_checkpoint dir it model1 optimizer1 w)),
         (snd (save_checkpoint dir it model1 optimizer1 w)),
         (set_fs w (<[artifact_path dir it :=
                        Pickled (artifact model2 optimizer2)]> (fs w))).
  split; [by destruct (save_checkpoint _ _ _ _ _)|].
  rewrite (save_checkpoint_run w dir it model1) by done.
  split; [|split; [|split; [|split]]].
  - case_bool_decide; simpl; apply Hsecond; congruence.
  - done.
  - case_bool_decide; simpl; rewrite !dom_insert_L; reflexivity.
  - rewrite save_checkpoint_run by done.
    by rewrite bool_decide_eq_true_2.
  - intros it' E. unfold artifact_path, OS.path_join in E.
    apply app_inv_head, (f_equal head), (inj Some) in E.
    by apply checkpoint_name_inj.
Qed.

End checkpoint_claims.

Section provenance_and_wrapping.
Import Torch Checkpointing.

(** C3 (a provenance mismatch only warns).  When the commit recorded in
    the session differs from the one git reports at load time, loading a
    readable artifact that fits the targets succeeds; the model holds the
    saved state dict, the optimizer (when one is given) the saved
    optimizer state; the file system is unchanged and exactly one warning,
    naming both commits, is added to the recorded warnings. *)
Theorem provenance_mismatch_only_warns (w : world) (dir : path) (it : Z)
    (target : nn_Module) (otarget : option Optimizer)
    (recorded out : string) (rc : Z)
    (comps : gmap string component) (sd : gmap string value)
    (od : optim_state) :
  git w = GitRan out rc ->
  fs w !! sidecar_path dir = Some (Text recorded) ->
  Str.strip_sha out <> Str.strip_sha recorded ->
  fs w !! artifact_path dir it = Some (Pickled comps) ->
  comps !! "model" = Some (ModelState sd) ->
  shape <$> sd = shape <$> state_dict (underlying target) ->
  (forall o, otarget = Some o ->
     comps !! "optimizer" = Some (OptimState od)
     /\ sd_param_groups od = param_groups o) ->
  exists model' optimizer' w',
    load_checkpoint dir it target otarget w
    = (Ok (model', optimizer'), w')
    /\ state_dict (underlying model') = sd
    /\ (forall o, otarget = Some o ->
          exists o', optimizer' = Some o'
                     /\ optimizer_state_dict o' = od)
    /\ (otarget = None -> optimizer' = None)
    /\ fs w' = fs w
    /\ warnings w'
       = (warnings w
          ++ [mismatch_message (Str.strip_sha out)
                               (Str.strip_sha recorded)])%list.
Proof.
  intros Hgit Hside Hne Hart Hmodel Hshape Hopt.
  destruct (load_checkpoint_run w dir it target otarget recorded out rc
              comps sd od) as (model' & Hrun & Hsd & _); try done.
  eexists model', _, _. split; [exact Hrun|].
  unfold after_check. rewrite bool_decide_eq_true_2 by done.
  repeat split; try done.
  - intros o ->. destruct (Hopt o eq_refl) as [_ Hg].
    eexists. split; [done|].
    unfold optimizer_state_dict, restored_optimizer. simpl.
    rewrite <- Hg. by destruct od.
  - by intros ->.
Qed.

(** C4, as amended.  [save_checkpoint] hands the final artifact path to
    [torch.save]; nothing is written to a temporary file first.  In a
    directory that exists, when an entry of the model's state dict or of
    the optimizer's state cannot be pickled, the call raises
    [PicklingError] and leaves a truncated file at the artifact path, in
    place of whatever artifact was there; no other path is touched. *)
Theorem failed_save_leaves_truncated_artifact (w : world) (dir : path)
    (it : Z) (model : nn_Module) (optimizer : Optimizer) :
  OS.path_isdir (fs w) dir = true ->
  fs w !! artifact_path dir it <> Some Dir ->
  (exists k, state_dict (underlying model) !! k = Some Closure)
  \/ (exists k, state optimizer !! k = Some Closure) ->
  exists w',
    save_checkpoint dir it model optimizer w = (Raise PicklingError, w')
    /\ fs w' !! artifact_path dir it = Some Truncated
    /\ (forall p, p <> artifact_path dir it -> fs w' !! p = fs w !! p).
Proof.
  intros Hdir Hfile Hbad.
  rewrite save_checkpoint_run by done.
  rewrite bool_decide_eq_false_2.
  - eexists. split; [done|]. simpl. split.
    + apply lookup_insert_eq.
    + intros p Hp. by rewrite lookup_insert_ne.
  - rewrite artifact_picklable. intros [Hm Ho].
    destruct Hbad as [[k Hk]|[k Hk]].
    + by specialize (Hm k _ Hk).
    + by specialize (Ho k _ Hk).
Qed.

(** C10 (checkpoints do not depend on data-parallel wrapping).  For a
    network with parameters [p], saved bare or wrapped in
    [nn.DataParallel], the artifact holds [p] itself under the key
    [model]; loading it into a network of the same architecture, bare or
    wrapped, succeeds and gives that network, wrapped as the target was,
    the parameters [p]. *)
Theorem data_parallel_interchangeable (w : world) (dir : path) (it : Z)
    (p q : gmap string value) (optimizer : Optimizer)
    (recorded out : string) (rc : Z) (saved_wrapped target_wrapped : bool) :
  is_session w dir recorded ->
  git w = GitRan out rc ->
  fs w !! artifact_path dir it <> Some Dir ->
  picklable_state p ->
  picklable_state (state optimizer) ->
  shape <$> p = shape <$> q ->
  exists w1 w2,
    save_checkpoint dir it (wrap saved_wrapped (Net p)) optimizer w
    = (Ok tt, w1)
    /\ fs w1 !! artifact_path dir it
       = Some (Pickled
                 {[ "model" := ModelState p;
                    "optimizer" :=
                      OptimState (optimizer_state_dict optimizer) ]})
    /\ load_checkpoint dir it (wrap target_wrapped (Net q)) None w1
       = (Ok (wrap target_wrapped (Net p), None), w2).
Proof.
  intros [Hdir Hside] Hgit Hfile Hpp Hpo Hshape.
  assert (Hart : artifact (wrap saved_wrapped (Net p)) optimizer
                 = {[ "model" := ModelState p;
                      "optimizer" :=
                        OptimState (optimizer_state_dict optimizer) ]}).
  { unfold artifact. destruct saved_wrapped; cbn [wrap underlying];
      by rewrite state_dict_Net. }
  set (w1 := set_fs w (<[artifact_path dir it :=
                           Pickled (artifact (wrap saved_wrapped (Net p))
                                             optimizer)]> (fs w))).
  assert (Hsave : save_checkpoint dir it (wrap saved_wrapped (Net p))
                    optimizer w = (Ok tt, w1)).
  { rewrite save_checkpoint_run by done.
    rewrite bool_decide_eq_true_2; [done|].
    apply artifact_picklable. split; [|done].
    destruct saved_wrapped; cbn [wrap underlying];
      by rewrite state_dict_Net. }
  destruct (load_checkpoint_run w1 dir it (wrap target_wrapped (Net q))
              None recorded out rc
              (artifact (wrap saved_wrapped (Net p)) optimizer) p
              (optimizer_state_dict optimizer))
    as (model' & Hrun & Hsd & Hwrapped & Hbare); try done.
  { simpl. rewrite lookup_insert_ne; [done|].
    intros E. by apply (sidecar_is_not_artifact dir it). }
  { simpl. apply lookup_insert_eq. }
  { by rewrite Hart. }
  { destruct target_wrapped; cbn [wrap underlying];
      by rewrite state_dict_Net. }
  exists w1, (after_check w1 out recorded).
  split; [done|]. split.
  { simpl. rewrite lookup_insert_eq. by rewrite Hart. }
  rewrite Hrun. do 2 f_equal.
  destruct target_wrapped; cbn [wrap] in *.
  - destruct (Hwrapped _ eq_refl) as (t' & Hload & ->).
    rewrite load_state_dict_Net in Hload by done.
    by injection Hload as <-.
  - by rewrite (Hbare q eq_refl).
Qed.

End provenance_and_wrapping.

Section session_creation.
Import Torch Checkpointing.

Lemma makedirs_fresh (w : world) (a : path) (b : string) :
  OS.path_isdir (fs w) a = true ->
  fs w !! OS.path_join a b = None ->
  OS.makedirs (OS.path_join a b) w
  = (Ok tt, set_fs w (<[OS.path_join a b := Dir]> (fs w))).
Proof.
  intros Hdir Hnew. unfold OS.makedirs, OS.path_join.
  rewrite rev_app_distr. simpl.
  assert (Hhead : forall w',
    fs w' = fs w ->
    (match rev a with
     | [] => ret tt
     | _ => if OS.path_exists (fs w') (rev (rev a)) then ret tt
            else try_pass FileExistsError (OS.makedirs_rev (rev a))
     end) w' = (Ok tt, w')).
  { intros w' Hfs. destruct (rev a) eqn:E; [done|]. rewrite <- E.
    rewrite rev_involutive, Hfs.
    assert (OS.path_exists (fs w) a = true) as ->; [|done].
    unfold OS.path_isdir, OS.path_exists in *.
    destruct a; [done|]. by destruct (fs w !! _) as [[]|]. }
  unfold bind at 1, get_fs. unfold bind at 1. rewrite Hhead by done.
  rewrite rev_involutive.
  unfold OS.mkdir, bind, get_fs, put_fs.
  fold (OS.path_join a b).
  assert (OS.path_exists (fs w) (OS.path_join a b) = false) as ->.
  { unfold OS.path_exists.
    destruct (OS.path_join a b) eqn:E;
      [by apply path_join_nonempty in E|].
    by rewrite Hnew. }
  by rewrite parent_path_join, Hdir.
Qed.

Lemma path_isdir_Dir (f : gmap path node) (p : path) :
  f !! p = Some Dir -> OS.path_isdir f p = true.
Proof. intros Hp. unfold OS.path_isdir. destruct p; by rewrite ?Hp. Qed.

Lemma path_isdir_insert_Dir (f : gmap path node) (p : path) :
  OS.path_isdir (<[p := Dir]> f) p = true.
Proof. apply path_isdir_Dir, lookup_insert_eq. Qed.

Lemma shutil_copy_into_dir (w : world) (src dir : path) (content : node) :
  OS.path_isdir (fs w) dir = true ->
  fs w !! src = Some content ->
  content <> Dir ->
  src <> [] ->
  fs w !! OS.path_join dir (OS.basename src) = None ->
  OS.shutil_copy src dir w
  = (Ok (OS.path_join dir (OS.basename src)),
     set_fs w (<[OS.path_join dir (OS.basename src) := content]> (fs w))).
Proof.
  intros Hdir Hsrc Hfile Hne Hdst.
  unfold OS.shutil_copy, bind at 1, get_fs. rewrite Hdir.
  rewrite bool_decide_eq_false_2 by congruence.
  rewrite (path_isdir_file _ _ content), Hsrc by done.
  unfold OS.open_w, OS.write, bind, get_fs, put_fs, ret. simpl.
  rewrite path_isdir_join_absent, parent_path_join, Hdir by done.
  unfold set_fs. simpl. by rewrite insert_insert_eq.
Qed.

(** C9, as amended.  In a base directory that exists, for a session
    directory that is new and a config file that exists:
    - when the git executable cannot be launched, the call raises the
      operating system's error after the directory and the config copy
      are in place, and no [commit_sha.txt] is written;
    - when git runs, whatever its exit status, the call succeeds and
      [commit_sha.txt] holds its normalised standard output, the empty
      string when git printed nothing. *)
Theorem create_checkpoint_dir_records_git_output (w : world)
    (save_dirpath config_ymlpath : path) (content : node) :
  let dir := OS.path_join save_dirpath (OS.strftime (now w)) in
  let with_config :=
    <[OS.path_join dir (OS.basename config_ymlpath) := content]>
      (<[dir := Dir]> (fs w)) in
  OS.path_isdir (fs w) save_dirpath = true ->
  fs w !! dir = None ->
  (forall name, fs w !! OS.path_join dir name = None) ->
  fs w !! config_ymlpath = Some content ->
  content <> Dir ->
  config_ymlpath <> [] ->
  (git w = GitMissing ->
     create_checkpoint_dir save_dirpath config_ymlpath w
     = (Raise FileNotFoundError, set_fs w with_config)
     /\ (OS.basename config_ymlpath <> "commit_sha.txt" ->
         with_config !! sidecar_path dir = None))
  /\ (forall out rc, git w = GitRan out rc ->
        create_checkpoint_dir save_dirpath config_ymlpath w
        = (Ok dir,
           set_fs w (<[sidecar_path dir := Text (Str.strip_sha out)]>
                       with_config))).
Proof.
  intros dir with_config Hbase Hnew Hempty Hcfg Hfile Hne.
  assert (Hchild : forall name, OS.path_join dir name <> dir).
  { intros name E. apply (f_equal length) in E.
    unfold OS.path_join in E. rewrite !length_app in E. simpl in E. lia. }
  assert (Hprefix :
    create_checkpoint_dir save_dirpath config_ymlpath w
    = (commit_sha <- OS.git_rev_parse_short_HEAD ;;
       OS.open_w (sidecar_path dir) (Text EmptyString) ;;
       OS.write (sidecar_path dir) (Text (Str.strip_sha commit_sha)) ;;
       ret dir)%io (set_fs w with_config)).
  { unfold create_checkpoint_dir, bind at 1, OS.datetime_now.
    fold dir. unfold bind at 1. subst dir.
    rewrite makedirs_fresh by done.
    set (dir := OS.path_join save_dirpath (OS.strftime (now w))) in *.
    unfold bind at 1.
    rewrite (shutil_copy_into_dir _ _ _ content); simpl.
    - done.
    - apply path_isdir_insert_Dir.
    - rewrite lookup_insert_ne; [done|congruence].
    - done.
    - done.
    - rewrite lookup_insert_ne; [apply Hempty|]. intros E.
      by apply (Hchild (OS.basename config_ymlpath)). }
  rewrite Hprefix. clear Hprefix.
  assert (Hdir : OS.path_isdir with_config dir = true).
  { apply path_isdir_Dir. unfold with_config.
    rewrite lookup_insert_ne by apply Hchild. apply lookup_insert_eq. }
  split.
  - intros Hgit. split.
    + unfold bind at 1, OS.git_rev_parse_short_HEAD. simpl.
      by rewrite Hgit.
    + intros Hbase'. unfold with_config, sidecar_path.
      rewrite lookup_insert_ne.
      * rewrite lookup_insert_ne; [apply Hempty|]. intros E.
        by apply (Hchild "commit_sha.txt").
      * unfold OS.path_join. intros E.
        apply app_inv_head, (f_equal head), (inj Some) in E. done.
  - intros out rc Hgit.
    unfold bind at 1, OS.git_rev_parse_short_HEAD. simpl. rewrite Hgit.
    unfold OS.open_w, OS.write, bind, get_fs, put_fs, ret. simpl.
    assert (OS.path_isdir with_config (sidecar_path dir) = false) as ->.
    { unfold sidecar_path, OS.path_isdir.
      destruct (OS.path_join dir "commit_sha.txt") eqn:E;
        [by apply path_join_nonempty in E|]. rewrite <- E.
      unfold with_config.
      destruct (decide (OS.path_join dir (OS.basename config_ymlpath)
                        = OS.path_join dir "commit_sha.txt")) as [<-|E'].
      - rewrite lookup_insert_eq. by destruct content.
      - rewrite lookup_insert_ne by done.
        rewrite lookup_insert_ne, Hempty; [done|]. intros E''.
        by apply (Hchild "commit_sha.txt"). }
    unfold sidecar_path at 1. rewrite parent_path_join, Hdir.
    unfold set_fs. simpl. by rewrite insert_insert_eq.
Qed.

End session_creation.

(** ** The checkpoint claims on the sample session *)

Section checkpoint_samples.
Import Torch Checkpointing Sample.

(** Decides a decidable proposition about the sample data by
    evaluation. *)
Local Ltac evaluate :=
  apply (bool_decide_unpack _); vm_compute; exact I.

(** The sample session is the one [create_checkpoint_dir] makes, and the
    artifact of the resumed session the one [save_checkpoint] writes. *)
Lemma sample_session_is_created :
  create_checkpoint_dir ["runs"] ["cfg.yml"] fresh = (Ok session_dir, session).
Proof. vm_compute. reflexivity. Qed.

Lemma sample_artifact_is_saved :
  exists w,
    save_checkpoint session_dir 3 (Net trained) sgd session = (Ok tt, w)
    /\ fs w = fs moved_on.
Proof. eexists. split; vm_compute; reflexivity. Qed.

(** A wrapped model saved at iteration 3 and loaded into a bare one. *)
Lemma sample_round_trip :
  exists w1,
    save_checkpoint session_dir 3 (DataParallel (Net trained)) sgd session
    = (Ok tt, w1)
    /\ (exists w2 model' optimizer',
          load_checkpoint session_dir 3 (Net blank) (Some sgd_blank) w1
          = (Ok (model', Some optimizer'), w2)
          /\ state_dict (underlying model')
             = state_dict (underlying (DataParallel (Net trained)))
          /\ optimizer_state_dict optimizer' = optimizer_state_dict sgd)
    /\ (exists w2 model',
          load_checkpoint session_dir 3 (Net blank) None w1
          = (Ok (model', None), w2)
          /\ state_dict (underlying model')
             = state_dict (underlying (DataParallel (Net trained)))).
Proof.
  apply (save_load_round_trip session session_dir 3
           (DataParallel (Net trained)) (Net blank) sgd sgd_blank
           "abc1234" ("abc1234" +:+ String Str.newline EmptyString) 0).
  - split; reflexivity.
  - reflexivity.
  - vm_compute. discriminate.
  - unfold picklable_state. evaluate.
  - unfold picklable_state. evaluate.
  - vm_compute. reflexivity.
  - reflexivity.
Defined.

Lemma sample_overwrite :
  exists r1 w1 w2,
    save_checkpoint session_dir 3 (Net trained) sgd session = (r1, w1)
    /\ save_checkpoint session_dir 3 (Net retrained) sgd_later w1
       = (Ok tt, w2)
    /\ fs w2 = <[artifact_path session_dir 3 :=
                   Pickled (artifact (Net retrained) sgd_later)]>
                 (fs session)
    /\ dom (fs w2) = dom (fs w1)
    /\ save_checkpoint session_dir 3 (Net retrained) sgd_later session
       = (Ok tt, w2)
    /\ (forall it', artifact_path session_dir it'
                    = artifact_path session_dir 3 -> it' = 3).
Proof.
  apply (save_twice_last_write_wins session session_dir 3
           (Net trained) (Net retrained) sgd sgd_later).
  - reflexivity.
  - vm_compute. discriminate.
  - unfold picklable_state. evaluate.
  - unfold picklable_state. evaluate.
Defined.

(** The session was created at [abc1234]; git now reports [def4567]. *)
Lemma sample_resume_after_commit :
  exists model' optimizer' w',
    load_checkpoint session_dir 3 (Net blank) (Some sgd_blank) moved_on
    = (Ok (model', optimizer'), w')
    /\ state_dict (underlying model') = trained
    /\ (forall o, Some sgd_blank = Some o ->
          exists o', optimizer' = Some o'
                     /\ optimizer_state_dict o'
                        = optimizer_state_dict sgd)
    /\ (Some sgd_blank = None -> optimizer' = None)
    /\ fs w' = fs moved_on
    /\ warnings w'
       = [mismatch_message "def4567" "abc1234"].
Proof.
  apply (provenance_mismatch_only_warns moved_on session_dir 3
           (Net blank) (Some sgd_blank) "abc1234"
           ("def4567" +:+ String Str.newline EmptyString) 0
           {[ "model" := ModelState trained;
              "optimizer" := OptimState (optimizer_state_dict sgd) ]}
           trained (optimizer_state_dict sgd)).
  - reflexivity.
  - reflexivity.
  - vm_compute. discriminate.
  - reflexivity.
  - reflexivity.
  - vm_compute. reflexivity.
  - intros o [= <-]. split; reflexivity.
Defined.

(** C4, counterexample.  Saving an optimizer that keeps a lambda at
    iteration 3 of the sample session raises, and a truncated file is
    left at [model_3.pth], where there was no file before. *)
Lemma failed_save_leaves_partial_file :
  exists w',
    save_checkpoint session_dir 3 (Net trained) sgd_with_lambda session
    = (Raise PicklingError, w')
    /\ fs session !! artifact_path session_dir 3 = None
    /\ fs w' !! artifact_path session_dir 3 = Some Truncated.
Proof.
  eexists. split; [|split].
  - rewrite save_checkpoint_run;
      [| reflexivity | vm_compute; discriminate].
    rewrite bool_decide_eq_false_2; [reflexivity|].
    rewrite artifact_picklable. intros [_ Ho].
    by specialize (Ho "schedule" Closure eq_refl).
  - reflexivity.
  - simpl. apply lookup_insert_eq.
Qed.

(** The failed save of iteration 3 replaces the artifact that was there. *)
Lemma sample_failed_save :
  exists w',
    save_checkpoint session_dir 3 (Net trained) sgd_with_lambda moved_on
    = (Raise PicklingError, w')
    /\ fs w' !! artifact_path session_dir 3 = Some Truncated
    /\ (forall p, p <> artifact_path session_dir 3 ->
                  fs w' !! p = fs moved_on !! p).
Proof.
  apply (failed_save_leaves_truncated_artifact moved_on session_dir 3
           (Net trained) sgd_with_lambda).
  - reflexivity.
  - vm_compute. discriminate.
  - right. exists "schedule". reflexivity.
Defined.

Lemma sample_unwrap :
  exists w1 w2,
    save_checkpoint session_dir 3 (wrap true (Net trained)) sgd session
    = (Ok tt, w1)
    /\ fs w1 !! artifact_path session_dir 3
       = Some (Pickled
                 {[ "model" := ModelState trained;
                    "optimizer" := OptimState (optimizer_state_dict sgd) ]})
    /\ load_checkpoint session_dir 3 (wrap false (Net blank)) None w1
       = (Ok (wrap false (Net trained), None), w2).
Proof.
  apply (data_parallel_interchangeable session session_dir 3 trained blank
           sgd "abc1234" ("abc1234" +:+ String Str.newline EmptyString) 0
           true false).
  - split; reflexivity.
  - reflexivity.
  - vm_compute. discriminate.
  - unfold picklable_state. evaluate.
  - unfold picklable_state. evaluate.
  - vm_compute. reflexivity.
Defined.

(** C9, counterexample.  Outside a work tree git exits with status 128
    and prints nothing on its standard output: the query still returns a
    tag, the empty string, and [create_checkpoint_dir] returns the
    session directory with an empty [commit_sha.txt] in it. *)
Lemma create_checkpoint_dir_records_empty_tag :
  git not_a_repo = GitRan EmptyString 128
  /\ OS.git_rev_parse_short_HEAD not_a_repo = (Ok EmptyString, not_a_repo)
  /\ exists w',
       create_checkpoint_dir ["runs"] ["cfg.yml"] not_a_repo
       = (Ok session_dir, w')
       /\ fs w' !! sidecar_path session_dir = Some (Text EmptyString).
Proof.
  split; [reflexivity|]. split; [reflexivity|].
  eexists. split; vm_compute; reflexivity.
Qed.

Lemma sample_session_creation :
  (git fresh = GitMissing ->
     create_checkpoint_dir ["runs"] ["cfg.yml"] fresh
     = (Raise FileNotFoundError,
        set_fs fresh
          (<[OS.path_join session_dir "cfg.yml" := Text "lr: 0.1"]>
             (<[session_dir := Dir]> (fs fresh))))
     /\ (OS.basename ["cfg.yml"] <> "commit_sha.txt" ->
         (<[OS.path_join session_dir "cfg.yml" := Text "lr: 0.1"]>
            (<[session_dir := Dir]> (fs fresh)))
         !! sidecar_path session_dir = None))
  /\ (forall out rc, git fresh = GitRan out rc ->
        create_checkpoint_dir ["runs"] ["cfg.yml"] fresh
        = (Ok session_dir,
           set_fs fresh
             (<[sidecar_path session_dir := Text (Str.strip_sha out)]>
                (<[OS.path_join session_dir "cfg.yml" := Text "lr: 0.1"]>
                   (<[session_dir := Dir]> (fs fresh)))))).
Proof.
  apply (create_checkpoint_dir_records_git_output fresh ["runs"]
           ["cfg.yml"] (Text "lr: 0.1")).
  - reflexivity.
  - reflexivity.
  - intros name. unfold fresh, base_fs. simpl.
    rewrite lookup_insert_ne by discriminate.
    rewrite lookup_singleton_ne by discriminate. reflexivity.
  - reflexivity.
  - discriminate.
  - discriminate.
Defined.

End checkpoint_samples.

(** ** The tokens reader *)

Section reader_lemmas.
Import Numpy Readers.

Lemma zip_instances_lookup (ps qs ans iis : ndarray) (k : nat) :
  zip_instances ps qs ans iis !! k
  = (p ← ps !! k; q ← qs !! k; a ← ans !! k; ii ← iis !! k;
     Some {| program := p; question := q;
             answer := a; image_index := ii |}).
Proof.
  revert qs ans iis k.
  induction ps as [|p ps IH]; intros [|q qs] [|a ans] [|ii iis] [|k];
    simpl; try done;
    try (by destruct (ps !! k)); 
    try (by destruct (ps !! k); simpl; [destruct (qs !! k)|]);
    try (by destruct (ps !! k); simpl;
            [destruct (qs !! k); simpl; [destruct (ans !! k)|]|]).
Qed.

Lemma zip_instances_length (n : nat) :
  forall ps qs ans iis : ndarray,
    length ps = n -> length qs = n -> length ans = n -> length iis = n ->
    length (zip_instances ps qs ans iis) = n.
Proof.
  induction n as [|n IH]; intros [|p ps] [|q qs] [|a ans] [|ii iis];
    simpl; try done.
  intros [= ?] [= ?] [= ?] [= ?]. f_equal. by apply IH.
Qed.

Lemma zip_instances_take_drop (ps qs ans iis : ndarray) (s c : nat) :
  zip_instances (take c (drop s ps)) (take c (drop s qs))
                (take c (drop s ans)) (take c (drop s iis))
  = take c (drop s (zip_instances ps qs ans iis)).
Proof.
  apply list_eq. intros i.
  rewrite zip_instances_lookup, !lookup_take, !lookup_drop.
  case_decide; [|done]. by rewrite zip_instances_lookup.
Qed.

Lemma rows_from (a : ndarray) (s c : nat) :
  (s + c <= length a)%nat ->
  omap (fun k => a !! (s + k)%nat) (seq 0 c) = take c (drop s a).
Proof.
  induction c as [|c IH]; intros Hle; [done|].
  rewrite seq_S, omap_app, IH by lia. simpl.
  destruct (lookup_lt_is_Some_2 a (s + c)) as [x Hx]; [lia|].
  rewrite Hx. simpl. symmetry. apply take_S_r.
  by rewrite lookup_drop.
Qed.

Lemma clamp_range (n v : Z) : 0 <= n -> 0 <= clamp n v <= n.
Proof. unfold clamp. intros Hn. destruct (v <? 0) eqn:E; lia. Qed.

(** [a[lo:hi]] is the segment of [a] between the clamped bounds. *)
Lemma getitem_slice_segment (a : ndarray) (lo hi : Z) :
  let n := Z.of_nat (length a) in
  getitem_slice a (Some lo) (Some hi) None
  = Ok (take (Z.to_nat (clamp n hi) - Z.to_nat (clamp n lo))
             (drop (Z.to_nat (clamp n lo)) a)).
Proof.
  intros n. unfold getitem_slice, slice_indices. simpl.
  fold n. fold (clamp n lo). fold (clamp n hi).
  pose proof (clamp_range n lo ltac:(lia)) as Hlo.
  pose proof (clamp_range n hi ltac:(lia)) as Hhi.
  set (l := clamp n lo) in *. set (h := clamp n hi) in *.
  f_equal. unfold range.
  assert (Z.to_nat (range_len l h 1) = (Z.to_nat h - Z.to_nat l)%nat)
    as ->.
  { unfold range_len. simpl. destruct (l <? h) eqn:E.
    - rewrite Z.div_1_r. lia.
    - lia. }
  rewrite <- rows_from by lia.
  induction (seq 0 (Z.to_nat h - Z.to_nat l)) as [|k ks IH]; [done|].
  simpl.
  replace (Z.to_nat (l + Z.of_nat k * 1)) with (Z.to_nat l + k)%nat
    by lia.
  destruct (a !! (Z.to_nat l + k)%nat); [f_equal|]; exact IH.
Qed.
End reader_lemmas.

Section reader_claims.
Import Numpy Readers.

(** C5, as amended.  [__init__] does not compare the lengths of the four
    arrays.  On a path that holds a tokens file:
    - when the four datasets and the [split] attribute are present, it
      returns a reader holding the arrays as stored, whatever their
      lengths;
    - when a dataset or the attribute is missing, it raises [KeyError]. *)
Theorem open_does_not_compare_lengths (w : world) (tokens_hdfpath : path)
    (h : hdf_file) :
  fs w !! tokens_hdfpath = Some (Hdf5 h) ->
  (forall ps qs ans iis s,
     datasets h !! "programs" = Some ps ->
     datasets h !! "questions" = Some qs ->
     datasets h !! "answers" = Some ans ->
     datasets h !! "image_indices" = Some iis ->
     attrs h !! "split" = Some s ->
     __init__ tokens_hdfpath w
     = (Ok {| programs := ps; questions := qs; answers := ans;
              image_indices := iis; _split := s |}, w))
  /\ (datasets h !! "programs" = None
      \/ datasets h !! "questions" = None
      \/ datasets h !! "answers" = None
      \/ datasets h !! "image_indices" = None
      \/ attrs h !! "split" = None ->
      __init__ tokens_hdfpath w = (Raise KeyError, w)).
Proof.
  intros Hfile. split.
  - intros ps qs ans iis s Hp Hq Ha Hi Hs.
    unfold __init__, H5py.File, H5py.dataset, H5py.attr, dict_getitem,
      bind, get_fs, ret.
    by rewrite Hfile, Hp, Hq, Ha, Hi, Hs.
  - intros Hmissing.
    unfold __init__, H5py.File, H5py.dataset, H5py.attr, dict_getitem,
      bind, get_fs, ret, raise.
    rewrite Hfile.
    destruct (datasets h !! "programs"); [|done].
    destruct (datasets h !! "questions"); [|done].
    destruct (datasets h !! "answers"); [|done].
    destruct (datasets h !! "image_indices"); [|done].
    destruct (attrs h !! "split"); [|done].
    destruct Hmissing as [?|[?|[?|[?|?]]]]; discriminate.
Qed.

(** C6.  [__len__] calls the attribute [size] of a numpy array, which is
    an [int]: on every reader the call raises [TypeError] and no length
    is returned. *)
Theorem len_raises_TypeError (self : ClevrTokensReader) :
  __len__ self = Raise TypeError.
Proof. reflexivity. Qed.

(** C8.  The class binds no attribute [keys]: looking it up on any
    reader raises [AttributeError]. *)
Theorem keys_raises_AttributeError (self : ClevrTokensReader) :
  getattr self "keys" = Raise AttributeError.
Proof. reflexivity. Qed.

Lemma getitem_int_row (a : ndarray) (i : Z) :
  let n := Z.of_nat (length a) in
  - n <= i < n ->
  exists r, getitem_int a i = Ok r
            /\ a !! Z.to_nat (if i <? 0 then i + n else i) = Some r.
Proof.
  intros n Hi. unfold getitem_int. fold n.
  assert (((- n <=? i) && (i <? n)) = true) as -> by lia.
  destruct (lookup_lt_is_Some_2 a (Z.to_nat (if i <? 0 then i + n else i)))
    as [r Hr]; [destruct (i <? 0) eqn:E; lia|].
  rewrite Hr. eauto.
Qed.

Lemma getitem_int_out_of_range (a : ndarray) (i : Z) :
  let n := Z.of_nat (length a) in
  i < - n \/ n <= i -> getitem_int a i = Raise IndexError.
Proof.
  intros n Hi. unfold getitem_int. fold n.
  assert (E : ((- n <=? i) && (i <? n)) = false) by lia. by rewrite E.
Qed.

(** C7, as amended.  On a reader whose four arrays have [n] rows,
    indexing follows numpy:
    - an integer in [0, n) gives the record of that row, an integer in
      [-n, 0) the record of row [i + n], and any other integer raises
      [IndexError];
    - a slice [lo:hi] never raises: its bounds are clamped to [0, n]
      (negative bounds counting from the end) and it gives one record
      per row between the clamped bounds, in ascending row order;
    - in particular, for [0 <= lo <= hi <= n] it gives the records of
      rows [lo], ..., [hi - 1] in that order, none when [lo = hi]. *)
Theorem getitem_follows_numpy_indexing (self : ClevrTokensReader)
    (n : nat) :
  length (programs self) = n ->
  length (questions self) = n ->
  length (answers self) = n ->
  length (image_indices self) = n ->
  (forall i, 0 <= i < Z.of_nat n ->
     exists x, __getitem__ self (Int i) = Ok (Single x)
               /\ row_at self (Z.to_nat i) = Some x)
  /\ (forall i, - Z.of_nat n <= i < 0 ->
        exists x, __getitem__ self (Int i) = Ok (Single x)
                  /\ row_at self (Z.to_nat (i + Z.of_nat n)) = Some x)
  /\ (forall i, i < - Z.of_nat n \/ Z.of_nat n <= i ->
        __getitem__ self (Int i) = Raise IndexError)
  /\ (forall lo hi,
        exists l,
          __getitem__ self (Slice (Some lo) (Some hi) None) = Ok (Batch l)
          /\ Forall2 (fun k x => row_at self k = Some x)
               (seq (Z.to_nat (clamp (Z.of_nat n) lo))
                    (Z.to_nat (clamp (Z.of_nat n) hi)
                     - Z.to_nat (clamp (Z.of_nat n) lo)))
               l)
  /\ (forall lo hi, 0 <= lo /\ lo <= hi <= Z.of_nat n ->
        exists l,
          __getitem__ self (Slice (Some lo) (Some hi) None) = Ok (Batch l)
          /\ Forall2 (fun k x => row_at self k = Some x)
               (seq (Z.to_nat lo) (Z.to_nat (hi - lo))) l).
Proof.
  intros Hp Hq Ha Hi.
  assert (Hint : forall i, - Z.of_nat n <= i < Z.of_nat n ->
    exists x, __getitem__ self (Int i) = Ok (Single x)
              /\ row_at self
                   (Z.to_nat (if i <? 0 then i + Z.of_nat n else i))
                 = Some x).
  { intros i Hrange. unfold __getitem__, row_at, rbind.
    destruct (getitem_int_row (programs self) i) as (p & -> & Lp);
      [by rewrite Hp|].
    destruct (getitem_int_row (questions self) i) as (q & -> & Lq);
      [by rewrite Hq|].
    destruct (getitem_int_row (answers self) i) as (a & -> & La);
      [by rewrite Ha|].
    destruct (getitem_int_row (image_indices self) i) as (ii & -> & Lii);
      [by rewrite Hi|].
    rewrite Hp in Lp. rewrite Hq in Lq. rewrite Ha in La.
    rewrite Hi in Lii. rewrite Lp, Lq, La, Lii. eauto. }
  assert (Hslice : forall lo hi,
    exists l,
      __getitem__ self (Slice (Some lo) (Some hi) None) = Ok (Batch l)
      /\ Forall2 (fun k x => row_at self k = Some x)
           (seq (Z.to_nat (clamp (Z.of_nat n) lo))
                (Z.to_nat (clamp (Z.of_nat n) hi)
                 - Z.to_nat (clamp (Z.of_nat n) lo)))
           l).
  { intros lo hi. unfold __getitem__, rbind.
    rewrite !getitem_slice_segment, Hp, Hq, Ha, Hi.
    rewrite zip_instances_take_drop.
    pose proof (clamp_range (Z.of_nat n) lo ltac:(lia)) as Hlo.
    pose proof (clamp_range (Z.of_nat n) hi ltac:(lia)) as Hhi.
    set (s := Z.to_nat (clamp (Z.of_nat n) lo)).
    set (c := (Z.to_nat (clamp (Z.of_nat n) hi) - s)%nat).
    pose proof (zip_instances_length n _ _ _ _ Hp Hq Ha Hi) as Hlen.
    eexists. split; [done|].
    apply Forall2_same_length_lookup_2.
    - rewrite length_seq, length_take, length_drop. lia.
    - intros i k x Hk Hx.
      apply lookup_seq in Hk as [-> Hlt].
      rewrite lookup_take_lt, lookup_drop, zip_instances_lookup in Hx
        by done.
      exact Hx. }
  split; [|split; [|split; [|split]]].
  - intros i Hrange. destruct (Hint i) as (x & E & Hx); [lia|].
    exists x. split; [done|].
    assert (E0 : (i <? 0) = false) by lia. by rewrite E0 in Hx.
  - intros i Hrange. destruct (Hint i) as (x & E & Hx); [lia|].
    exists x. split; [done|].
    assert (E0 : (i <? 0) = true) by lia. by rewrite E0 in Hx.
  - intros i Hout. unfold __getitem__, rbind.
    by rewrite getitem_int_out_of_range by (by rewrite Hp).
  - exact Hslice.
  - intros lo hi Hrange. destruct (Hslice lo hi) as (l & E & Hl).
    exists l. split; [done|].
    unfold clamp in Hl.
    assert ((lo <? 0) = false) as Hlo by lia.
    assert ((hi <? 0) = false) as Hhi by lia.
    rewrite Hlo, Hhi in Hl.
    replace (Z.min lo (Z.of_nat n)) with lo in Hl by lia.
    replace (Z.min hi (Z.of_nat n)) with hi in Hl by lia.
    replace (Z.to_nat (hi - lo)) with (Z.to_nat hi - Z.to_nat lo)%nat
      by lia.
    exact Hl.
Qed.

End reader_claims.

(** ** The reader claims on the sample files *)

Section reader_samples.
Import Numpy Readers Sample.

Lemma sample_reader_is_opened :
  __init__ ["data"; "train.h5"] disk = (Ok reader, disk).
Proof. vm_compute. reflexivity. Qed.

(** C5, counterexample.  In [data/ragged.h5] the array [questions] has 9
    rows and the other three have 10: [__init__] returns a reader. *)
Lemma ragged_store_opens :
  length <$> datasets ragged_tokens !! "programs" = Some 10%nat
  /\ length <$> datasets ragged_tokens !! "questions" = Some 9%nat
  /\ length <$> datasets ragged_tokens !! "answers" = Some 10%nat
  /\ length <$> datasets ragged_tokens !! "image_indices" = Some 10%nat
  /\ __init__ ["data"; "ragged.h5"] disk = (Ok ragged_reader, disk).
Proof. repeat split; vm_compute; reflexivity. Qed.

Lemma sample_open :
  (forall ps qs ans iis s,
     datasets ragged_tokens !! "programs" = Some ps ->
     datasets ragged_tokens !! "questions" = Some qs ->
     datasets ragged_tokens !! "answers" = Some ans ->
     datasets ragged_tokens !! "image_indices" = Some iis ->
     attrs ragged_tokens !! "split" = Some s ->
     __init__ ["data"; "ragged.h5"] disk
     = (Ok {| programs := ps; questions := qs; answers := ans;
              image_indices := iis; _split := s |}, disk))
  /\ (datasets ragged_tokens !! "programs" = None
      \/ datasets ragged_tokens !! "questions" = None
      \/ datasets ragged_tokens !! "answers" = None
      \/ datasets ragged_tokens !! "image_indices" = None
      \/ attrs ragged_tokens !! "split" = None ->
      __init__ ["data"; "ragged.h5"] disk = (Raise KeyError, disk)).
Proof.
  apply (open_does_not_compare_lengths disk ["data"; "ragged.h5"]
           ragged_tokens).
  reflexivity.
Defined.

(** C7, counterexample.  On the ten-row reader, [reader[0:11]] does not
    fail: it returns the ten records; and [reader[-1]], an index outside
    [0, 10), returns the record of row 9. *)
Lemma slice_past_the_end_is_clamped :
  length (programs reader) = 10%nat
  /\ length (questions reader) = 10%nat
  /\ length (answers reader) = 10%nat
  /\ length (image_indices reader) = 10%nat
  /\ (exists l, __getitem__ reader (Slice (Some 0) (Some 11) None)
                = Ok (Batch l)
                /\ length l = 10%nat)
  /\ __getitem__ reader (Int (-1))
     = Ok (Single {| program := Vector [9; 19];
                     question := Vector [109; 7; 9];
                     answer := Scalar 1;
                     image_index := Scalar 4 |}).
Proof.
  repeat split; try reflexivity.
  eexists. split; vm_compute; reflexivity.
Qed.

Lemma sample_getitem :
  (forall i, 0 <= i < 10 ->
     exists x, __getitem__ reader (Int i) = Ok (Single x)
               /\ row_at reader (Z.to_nat i) = Some x)
  /\ (forall i, - 10 <= i < 0 ->
        exists x, __getitem__ reader (Int i) = Ok (Single x)
                  /\ row_at reader (Z.to_nat (i + 10)) = Some x)
  /\ (forall i, i < - 10 \/ 10 <= i ->
        __getitem__ reader (Int i) = Raise IndexError)
  /\ (forall lo hi,
        exists l,
          __getitem__ reader (Slice (Some lo) (Some hi) None)
          = Ok (Batch l)
          /\ Forall2 (fun k x => row_at reader k = Some x)
               (seq (Z.to_nat (clamp 10 lo))
                    (Z.to_nat (clamp 10 hi) - Z.to_nat (clamp 10 lo)))
               l)
  /\ (forall lo hi, 0 <= lo /\ lo <= hi <= 10 ->
        exists l,
          __getitem__ reader (Slice (Some lo) (Some hi) None)
          = Ok (Batch l)
          /\ Forall2 (fun k x => row_at reader k = Some x)
               (seq (Z.to_nat lo) (Z.to_nat (hi - lo))) l).
Proof.
  apply (getitem_follows_numpy_indexing reader 10); reflexivity.
Defined.

End reader_samples.

(** * Further properties of the checkpoint functions *)

Section checkpoint_frames.
Import Torch Checkpointing.

Lemma artifact_path_inj (dir : path) (i j : Z) :
  artifact_path dir i = artifact_path dir j -> i = j.
Proof.
  unfold artifact_path, OS.path_join. intros E.
  apply app_inv_head, (f_equal head), (inj Some) in E.
  by apply checkpoint_name_inj.
Qed.

Lemma save_checkpoint_is_torch_save (dir : path) (it : Z)
    (model : nn_Module) (optimizer : Optimizer) :
  save_checkpoint dir it model optimizer
  = Torch.save (artifact model optimizer) (artifact_path dir it).
Proof. by destruct model. Qed.

(** X1.  Whatever its arguments and whether it returns or raises,
    [save_checkpoint] leaves git, the clock and the recorded warnings as
    they were, and changes no path of the file system other than the
    artifact path of its iteration: the sidecar, the config copy and the
    artifacts of other iterations are never touched. *)
Theorem save_checkpoint_touches_only_its_artifact (w w' : world)
    (dir : path) (it : Z) (model : nn_Module) (optimizer : Optimizer)
    (r : result unit) :
  save_checkpoint dir it model optimizer w = (r, w') ->
  git w' = git w /\ now w' = now w /\ warnings w' = warnings w
  /\ (forall p, p <> artifact_path dir it -> fs w' !! p = fs w !! p).
Proof.
  rewrite save_checkpoint_is_torch_save.
  unfold Torch.save, OS.open_w, OS.write, bind, get_fs, put_fs, raise.
  intros E.
  repeat match type of E with
         | context [if ?b then _ else _] => destruct b
         end;
    injection E as <- <-; simpl; repeat split; try done;
    intros p Hp; by rewrite ?lookup_insert_ne by done.
Qed.


(** X3.  Saves of different iterations do not interfere: after saving
    iteration [it1] and then a different iteration [it2] in a session
    directory, the artifact of [it1] is still the dict of the first call,
    and loading [it1] restores the state saved first. *)
Theorem saves_of_distinct_iterations_are_independent (w : world)
    (dir : path) (it1 it2 : Z) (model1 model2 target : nn_Module)
    (optimizer1 optimizer2 : Optimizer) (recorded out : string) (rc : Z) :
  is_session w dir recorded ->
  git w = GitRan out rc ->
  it1 <> it2 ->
  fs w !! artifact_path dir it1 <> Some Dir ->
  fs w !! artifact_path dir it2 <> Some Dir ->
  picklable_state (state_dict (underlying model1)) ->
  picklable_state (state optimizer1) ->
  picklable_state (state_dict (underlying model2)) ->
  picklable_state (state optimizer2) ->
  shape <$> state_dict (underlying model1)
    = shape <$> state_dict (underlying target) ->
  exists w1 w2,
    save_checkpoint dir it1 model1 optimizer1 w = (Ok tt, w1)
    /\ save_checkpoint dir it2 model2 optimizer2 w1 = (Ok tt, w2)
    /\ fs w2 !! artifact_path dir it1
       = Some (Pickled (artifact model1 optimizer1))
    /\ fs w2 !! artifact_path dir it2
       = Some (Pickled (artifact model2 optimizer2))
    /\ exists model' w3,
         load_checkpoint dir it1 target None w2 = (Ok (model', None), w3)
         /\ state_dict (underlying model')
            = state_dict (underlying model1).
Proof.
  intros [Hdir Hside] Hgit Hne Hf1 Hf2 Hpm1 Hpo1 Hpm2 Hpo2 Hshape.
  assert (Hpaths : artifact_path dir it1 <> artifact_path dir it2).
  { intros E. by apply artifact_path_inj in E. }
  set (w1 := set_fs w (<[artifact_path dir it1 :=
                           Pickled (artifact model1 optimizer1)]> (fs w))).
  set (w2 := set_fs w1 (<[artifact_path dir it2 :=
                            Pickled (artifact model2 optimizer2)]> (fs w1))).
  exists w1, w2.
  assert (Hs1 : save_checkpoint dir it1 model1 optimizer1 w = (Ok tt, w1)).
  { rewrite save_checkpoint_run by done.
    rewrite bool_decide_eq_true_2; [done|]. by apply artifact_picklable. }
  assert (Hs2 : save_checkpoint dir it2 model2 optimizer2 w1 = (Ok tt, w2)).
  { rewrite save_checkpoint_run.
    - rewrite bool_decide_eq_true_2; [done|]. by apply artifact_picklable.
    - simpl. unfold OS.path_isdir in *. destruct dir as [|c dir]; [done|].
      rewrite lookup_insert_ne; [done|].
      intros E. apply (f_equal length) in E.
      unfold artifact_path, OS.path_join in E.
      rewrite length_app in E. simpl in E. lia.
    - simpl. by rewrite lookup_insert_ne. }
  assert (Ha1 : fs w2 !! artifact_path dir it1
                = Some (Pickled (artifact model1 optimizer1))).
  { simpl. rewrite lookup_insert_ne by done. apply lookup_insert_eq. }
  split; [done|]. split; [done|]. split; [done|].
  split; [simpl; apply lookup_insert_eq|].
  destruct (load_checkpoint_run w2 dir it1 target None recorded out rc
              (artifact model1 optimizer1)
              (state_dict (underlying model1))
              (optimizer_state_dict optimizer1))
    as (model' & Hrun & Hsd & _); try done.
  { simpl. rewrite !lookup_insert_ne; [done| |];
      intros E; symmetry in E; by apply (sidecar_is_not_artifact dir) in E. }
  eauto.
Qed.

End checkpoint_frames.

Section load_outcomes.
Import Torch Checkpointing.

(** The world a call of [load_checkpoint] leaves once the two commits
    have been read, whatever happens afterwards. *)
Lemma load_checkpoint_world (w : world) (dir : path) (it : Z)
    (target : nn_Module) (otarget : option Optimizer)
    (recorded out : string) (rc : Z) :
  git w = GitRan out rc ->
  fs w !! sidecar_path dir = Some (Text recorded) ->
  snd (load_checkpoint dir it target otarget w) = after_check w out recorded.
Proof.
  intros Hgit Hside.
  unfold load_checkpoint, bind at 1, OS.git_rev_parse_short_HEAD.
  rewrite Hgit.
  unfold bind at 1, OS.read_text, bind at 1, get_fs.
  fold (sidecar_path dir).
  rewrite (path_isdir_file _ _ (Text recorded)), Hside
    by (done || apply path_join_nonempty).
  unfold ret at 1. unfold bind at 1.
  assert (Hstep : (if bool_decide (Str.strip_sha out
                                   <> Str.strip_sha recorded)
                   then OS.warnings_warn
                          (mismatch_message (Str.strip_sha out)
                                            (Str.strip_sha recorded))
                   else ret tt) w
                  = (Ok tt, after_check w out recorded)).
  { unfold after_check. by case_bool_decide. }
  rewrite Hstep.
  generalize (after_check w out recorded). intros w1.
  unfold Torch.load, dict_getitem, lift, bind, get_fs, ret, raise.
  repeat case_match; simplify_eq/=; done.
Qed.

Lemma load_checkpoint_world_cases (w : world) (dir : path) (it : Z)
    (target : nn_Module) (otarget : option Optimizer) :
  snd (load_checkpoint dir it target otarget w) = w
  \/ exists msg,
       snd (load_checkpoint dir it target otarget w) = add_warning w msg.
Proof.
  destruct (git w) as [|out rc] eqn:Hgit.
  { left. unfold load_checkpoint, bind at 1, OS.git_rev_parse_short_HEAD.
    by rewrite Hgit. }
  destruct (fs w !! sidecar_path dir) as [[| recorded | | |]|] eqn:Hside.
  2: { rewrite (load_checkpoint_world w dir it target otarget recorded
                  out rc) by done.
       unfold after_check. case_bool_decide; eauto. }
  all: left;
    unfold load_checkpoint, bind at 1, OS.git_rev_parse_short_HEAD;
    rewrite Hgit;
    unfold bind at 1, OS.read_text, bind at 1, get_fs;
    fold (sidecar_path dir);
    unfold OS.path_isdir; destruct (sidecar_path dir) eqn:Hp;
      [by apply path_join_nonempty in Hp|];
    by rewrite Hside.
Qed.

(** X4.  [load_checkpoint] only reads: whatever its arguments and whether
    it returns or raises, the file system, git and the clock are left as
    they were, and the recorded warnings are unchanged or extended by one
    message. *)
Theorem load_checkpoint_only_reads (w w' : world) (dir : path) (it : Z)
    (target : nn_Module) (otarget : option Optimizer)
    (r : result (nn_Module * option Optimizer)) :
  load_checkpoint dir it target otarget w = (r, w') ->
  fs w' = fs w /\ git w' = git w /\ now w' = now w
  /\ (warnings w' = warnings w
      \/ exists msg, warnings w' = (warnings w ++ [msg])%list).
Proof.
  intros E.
  destruct (load_checkpoint_world_cases w dir it target otarget)
    as [Hw | [msg Hw]]; rewrite E in Hw; simpl in Hw; subst w'; simpl;
    repeat split; eauto.
Qed.



(** X7.  Loading an iteration that was never saved: with git available and
    the sidecar in place, when no file exists at the artifact path the call
    raises [FileNotFoundError]; nothing is restored, and the only trace is
    the mismatch warning when the commits differ. *)
Theorem load_checkpoint_missing_iteration (w : world) (dir : path) (it : Z)
    (target : nn_Module) (otarget : option Optimizer)
    (recorded out : string) (rc : Z) :
  git w = GitRan out rc ->
  fs w !! sidecar_path dir = Some (Text recorded) ->
  fs w !! artifact_path dir it = None ->
  load_checkpoint dir it target otarget w
  = (Raise FileNotFoundError, after_check w out recorded).
Proof.
  intros Hgit Hside Hart.
  pose proof (load_checkpoint_world w dir it target otarget recorded out rc
                Hgit Hside) as Hw.
  destruct (load_checkpoint dir it target otarget w) as [r w'] eqn:E.
  simpl in Hw. subst w'. f_equal.
  apply (f_equal fst) in E. simpl in E. subst r.
  unfold load_checkpoint, bind at 1, OS.git_rev_parse_short_HEAD.
  rewrite Hgit.
  unfold bind at 1, OS.read_text, bind at 1, get_fs.
  fold (sidecar_path dir). fold (artifact_path dir it).
  rewrite (path_isdir_file _ _ (Text recorded)), Hside
    by (done || apply path_join_nonempty).
  unfold ret at 1. unfold bind at 1.
  case_bool_decide; unfold OS.warnings_warn, ret;
    unfold bind at 1, Torch.load, bind at 1, get_fs; simpl;
    unfold artifact_path in *;
    by rewrite path_isdir_join_absent, Hart.
Qed.

End load_outcomes.

Section load_rejections.
Import Torch Checkpointing.

(** The steps of [load_checkpoint] up to [torch.load], on a readable
    artifact. *)
Lemma load_checkpoint_after_torch_load (w : world) (dir : path) (it : Z)
    (target : nn_Module) (otarget : option Optimizer)
    (recorded out : string) (rc : Z) (comps : gmap string component) :
  git w = GitRan out rc ->
  fs w !! sidecar_path dir = Some (Text recorded) ->
  fs w !! artifact_path dir it = Some (Pickled comps) ->
  load_checkpoint dir it target otarget w
  = (model' <-
       (match target with
        | DataParallel module =>
            c <- dict_getitem comps "model" ;;
            module' <- lift (load_state_dict module c) ;;
            ret (DataParallel module')
        | _ =>
            c <- dict_getitem comps "model" ;;
            lift (load_state_dict target c)
        end) ;;
     optimizer' <-
       (match otarget with
        | Some o =>
            c <- dict_getitem comps "optimizer" ;;
            o' <- lift (optimizer_load_state_dict o c) ;;
            ret (Some o')
        | None => ret None
        end) ;;
     ret (model', optimizer'))%io (after_check w out recorded).
Proof.
  intros Hgit Hside Hart.
  unfold load_checkpoint, bind at 1, OS.git_rev_parse_short_HEAD.
  rewrite Hgit.
  unfold bind at 1, OS.read_text, bind at 1, get_fs.
  fold (sidecar_path dir). fold (artifact_path dir it).
  rewrite (path_isdir_file _ _ (Text recorded)), Hside
    by (done || apply path_join_nonempty).
  unfold ret at 1. unfold bind at 1.
  assert (Hstep : (if bool_decide (Str.strip_sha out
                                   <> Str.strip_sha recorded)
                   then OS.warnings_warn
                          (mismatch_message (Str.strip_sha out)
                                            (Str.strip_sha recorded))
                   else ret tt) w
                  = (Ok tt, after_check w out recorded)).
  { unfold after_check. by case_bool_decide. }
  rewrite Hstep.
  assert (Hfs : fs (after_check w out recorded) = fs w).
  { unfold after_check. by case_bool_decide. }
  unfold bind at 1, Torch.load, bind at 1, get_fs. rewrite Hfs.
  rewrite (path_isdir_file _ _ (Pickled comps)), Hart
    by (done || apply path_join_nonempty).
  done.
Qed.


(** X9.  The optimizer entry is read only when an optimizer is passed:
    on a readable artifact whose [model] entry fits the target and which
    has no [optimizer] entry, [load_checkpoint] without an optimizer
    succeeds and returns [None] for it, while the same call with an
    optimizer raises [KeyError]. *)
Theorem load_checkpoint_optimizer_is_optional (w : world) (dir : path)
    (it : Z) (target : nn_Module) (o : Optimizer)
    (recorded out : string) (rc : Z)
    (comps : gmap string component) (sd : gmap string value) :
  git w = GitRan out rc ->
  fs w !! sidecar_path dir = Some (Text recorded) ->
  fs w !! artifact_path dir it = Some (Pickled comps) ->
  comps !! "model" = Some (ModelState sd) ->
  comps !! "optimizer" = None ->
  shape <$> sd = shape <$> state_dict (underlying target) ->
  (exists model',
     load_checkpoint dir it target None w
     = (Ok (model', None), after_check w out recorded)
     /\ state_dict (underlying model') = sd)
  /\ load_checkpoint dir it target (Some o) w
     = (Raise KeyError, after_check w out recorded).
Proof.
  intros Hgit Hside Hart Hmodel Hnone Hshape. split.
  - destruct (load_checkpoint_run w dir it target None recorded out rc
                comps sd (optimizer_state_dict o))
      as (model' & Hrun & Hsd & _); try done.
    eauto.
  - rewrite (load_checkpoint_after_torch_load w dir it target (Some o)
               recorded out rc comps) by done.
    destruct (load_state_dict_Ok (underlying target) sd Hshape)
      as (m' & Hload & _).
    unfold bind, dict_getitem, ret, lift, raise. rewrite Hmodel, Hnone.
    destruct target; cbn [underlying] in Hload; by rewrite Hload.
Qed.

(** X10.  Loading is strict: on a readable artifact whose [model] entry
    does not have the parameter names and shapes of the module restored
    into, [load_checkpoint] raises [RuntimeError], before the optimizer
    entry is looked at. *)
Theorem load_checkpoint_rejects_other_architecture (w : world) (dir : path)
    (it : Z) (target : nn_Module) (otarget : option Optimizer)
    (recorded out : string) (rc : Z)
    (comps : gmap string component) (sd : gmap string value) :
  git w = GitRan out rc ->
  fs w !! sidecar_path dir = Some (Text recorded) ->
  fs w !! artifact_path dir it = Some (Pickled comps) ->
  comps !! "model" = Some (ModelState sd) ->
  shape <$> sd <> shape <$> state_dict (underlying target) ->
  load_checkpoint dir it target otarget w
  = (Raise RuntimeError, after_check w out recorded).
Proof.
  intros Hgit Hside Hart Hmodel Hshape.
  rewrite (load_checkpoint_after_torch_load w dir it target otarget
             recorded out rc comps) by done.
  unfold bind, dict_getitem, ret, lift, raise. rewrite Hmodel.
  destruct target; cbn [underlying] in Hshape;
    unfold load_state_dict; by rewrite bool_decide_eq_false_2.
Qed.

End load_rejections.

Section session_creation_outcomes.
Import Torch Checkpointing.

Lemma bind_Ok {A B} (c : io A) (k : A -> io B) (w w' : world) (b : B) :
  bind c k w = (Ok b, w') ->
  exists a w1, c w = (Ok a, w1) /\ k a w1 = (Ok b, w').
Proof.
  unfold bind. destruct (c w) as [[a|e] w1]; [eauto | discriminate].
Qed.

Lemma path_isdir_insert_ne (f : gmap path node) (p q : path) (n : node) :
  p <> q -> OS.path_isdir (<[p := n]> f) q = OS.path_isdir f q.
Proof.
  intros Hne. unfold OS.path_isdir. destruct q; [done|].
  by rewrite lookup_insert_ne.
Qed.

Lemma path_isdir_exists (f : gmap path node) (p : path) :
  OS.path_isdir f p = true -> OS.path_exists f p = true.
Proof.
  unfold OS.path_isdir, OS.path_exists. destruct p; [done|].
  by destruct (f !! _) as [[]|].
Qed.

Lemma path_join_ne_dir (dir : path) (name : string) :
  OS.path_join dir name <> dir.
Proof.
  intros E. apply (f_equal length) in E.
  unfold OS.path_join in E. rewrite length_app in E. simpl in E. lia.
Qed.

Lemma path_join_ne_parent (a : path) (b c : string) :
  OS.path_join (OS.path_join a b) c <> a.
Proof.
  intros E. apply (f_equal length) in E.
  unfold OS.path_join in E. rewrite !length_app in E. simpl in E. lia.
Qed.

Lemma mkdir_world (p : path) (w w' : world) (r : result unit) :
  OS.mkdir p w = (r, w') ->
  git w' = git w /\ now w' = now w /\ warnings w' = warnings w.
Proof.
  unfold OS.mkdir, bind, get_fs, put_fs, raise. intros E.
  repeat case_match; by simplify_eq.
Qed.

(** [os.makedirs] changes the file system only. *)
Lemma makedirs_rev_world (rname : list string) :
  forall (w w' : world) (r : result unit),
    OS.makedirs_rev rname w = (r, w') ->
    git w' = git w /\ now w' = now w /\ warnings w' = warnings w.
Proof.
  induction rname as [|x rhead IH]; intros w w' r E;
    [by injection E as <- <-|].
  cbn [OS.makedirs_rev] in E. unfold bind at 1, get_fs in E.
  unfold bind at 1 in E.
  set (c := match rhead with
            | [] => ret tt
            | _ => if OS.path_exists (fs w) (rev rhead) then ret tt
                   else try_pass FileExistsError (OS.makedirs_rev rhead)
            end) in E.
  assert (Hhead : forall r1 w1, c w = (r1, w1) ->
    git w1 = git w /\ now w1 = now w /\ warnings w1 = warnings w).
  { subst c. intros r1 w1 Hc. destruct rhead as [|y rhead'];
      [by injection Hc as <- <-|].
    destruct (OS.path_exists _ _); [by injection Hc as <- <-|].
    unfold try_pass in Hc.
    destruct (OS.makedirs_rev (y :: rhead') w) as [r2 w2] eqn:Hm.
    apply IH in Hm.
    destruct r2 as [[]|e]; [by injection Hc as <- <-|].
    case_bool_decide; by injection Hc as <- <-. }
  destruct (c w) as [[[]|e] w1]; specialize (Hhead _ _ eq_refl).
  - apply mkdir_world in E. destruct E as (-> & -> & ->). done.
  - by injection E as <- <-.
Qed.

(** A successful [os.makedirs(name)] ends by making [name] inside a
    parent that is a directory. *)
Lemma makedirs_Ok (name : path) (w w' : world) :
  OS.makedirs name w = (Ok tt, w') ->
  exists wa,
    git wa = git w /\ now wa = now w /\ warnings wa = warnings w
    /\ OS.path_isdir (fs wa) (OS.parent name) = true
    /\ w' = set_fs wa (<[name := Dir]> (fs wa)).
Proof.
  unfold OS.makedirs. intros E.
  destruct (rev name) as [|x rhead] eqn:Hrev; [discriminate|].
  assert (Hname : rev (x :: rhead) = name)
    by (by rewrite <- Hrev, rev_involutive).
  cbn [OS.makedirs_rev] in E. unfold bind at 1, get_fs in E.
  apply bind_Ok in E as ([] & wa & Hhead & Hmk).
  exists wa. rewrite Hname in Hmk.
  assert (Henv : git wa = git w /\ now wa = now w
                 /\ warnings wa = warnings w).
  { destruct rhead as [|y rhead']; [by injection Hhead as <-|].
    destruct (OS.path_exists _ _); [by injection Hhead as <-|].
    unfold try_pass in Hhead.
    destruct (OS.makedirs_rev (y :: rhead') w) as [r2 w2] eqn:Hm.
    apply makedirs_rev_world in Hm.
    destruct r2 as [[]|e]; [by injection Hhead as <-|].
    case_bool_decide; by simplify_eq. }
  destruct Henv as (? & ? & ?). repeat split; try done.
  all: unfold OS.mkdir, bind, get_fs, put_fs, raise in Hmk;
    repeat case_match; by simplify_eq.
Qed.

(** What a successful [create_checkpoint_dir] did: [files] is the file
    system after [os.makedirs] made the missing parents, if any. *)
Lemma create_checkpoint_dir_Ok (w w' : world)
    (save_dirpath config_ymlpath d : path) :
  create_checkpoint_dir save_dirpath config_ymlpath w = (Ok d, w') ->
  let dir := OS.path_join save_dirpath (OS.strftime (now w)) in
  d = dir
  /\ exists (files : gmap path node) (content : node) (out : string) (rc : Z),
       git w = GitRan out rc
       /\ OS.path_isdir files save_dirpath = true
       /\ w' = set_fs w
                 (<[sidecar_path dir := Text (Str.strip_sha out)]>
                    (<[OS.path_join dir (OS.basename config_ymlpath)
                       := content]>
                       (<[dir := Dir]> files))).
Proof.
  intros E dir. unfold create_checkpoint_dir in E.
  apply bind_Ok in E as (d0 & w0 & Hnow & E).
  injection Hnow as <- <-. fold dir in E.
  apply bind_Ok in E as ([] & w1 & Hmk & E).
  apply makedirs_Ok in Hmk as (wa & Hg & Hn & Hw & Hparent & ->).
  unfold dir in Hparent at 1. rewrite parent_path_join in Hparent.
  apply bind_Ok in E as (dst & w2 & Hcopy & E).
  unfold OS.shutil_copy, bind at 1, get_fs in Hcopy. simpl in Hcopy.
  rewrite path_isdir_insert_Dir in Hcopy.
  case_bool_decide; [discriminate|].
  destruct (OS.path_isdir _ config_ymlpath); [discriminate|].
  destruct (<[dir := Dir]> (fs wa) !! config_ymlpath) as [content|];
    [|discriminate].
  unfold OS.open_w, OS.write, bind, get_fs, put_fs, ret, raise in Hcopy.
  simpl in Hcopy. rewrite parent_path_join, path_isdir_insert_Dir in Hcopy.
  destruct (OS.path_isdir _ (OS.path_join dir _)); [discriminate|].
  injection Hcopy as <- <-.
  apply bind_Ok in E as (out & w3 & Hgit & E).
  unfold OS.git_rev_parse_short_HEAD in Hgit. simpl in Hgit.
  rewrite Hg in Hgit.
  destruct (git w) as [|out' rc] eqn:Hgw; [discriminate|].
  injection Hgit as <- <-.
  unfold OS.open_w, OS.write, bind, get_fs, put_fs, ret, raise in E.
  simpl in E. rewrite insert_insert_eq in E.
  rewrite parent_path_join in E.
  rewrite (path_isdir_insert_ne _ _ dir), path_isdir_insert_Dir in E
    by apply path_join_ne_dir.
  destruct (OS.path_isdir _ (OS.path_join dir "commit_sha.txt"));
    [discriminate|].
  injection E as <- <-. split; [done|].
  exists (fs wa), content, out', rc. repeat split; try done.
  unfold set_fs. simpl. rewrite insert_insert_eq.
  by rewrite Hg, Hn, Hw, Hgw.
Qed.

(** X11.  A successful [create_checkpoint_dir] returns
    [save_dirpath/<timestamp>], and leaves a session there: git ran, the
    directory exists and its [commit_sha.txt] holds git's normalised
    output.  Git, the clock and the recorded warnings are as before. *)
Theorem created_directory_is_a_session (w w' : world)
    (save_dirpath config_ymlpath d : path) :
  create_checkpoint_dir save_dirpath config_ymlpath w = (Ok d, w') ->
  d = OS.path_join save_dirpath (OS.strftime (now w))
  /\ (exists out rc, git w = GitRan out rc
                     /\ is_session w' d (Str.strip_sha out))
  /\ git w' = git w /\ now w' = now w /\ warnings w' = warnings w.
Proof.
  intros E. apply create_checkpoint_dir_Ok in E
    as (-> & files & content & out & rc & Hgit & Hbase & ->).
  split; [done|]. split; [|done].
  exists out, rc. split; [done|]. split; simpl.
  - apply path_isdir_Dir.
    rewrite !lookup_insert_ne by apply path_join_ne_dir.
    apply lookup_insert_eq.
  - apply lookup_insert_eq.
Qed.

(** X12.  Two sessions cannot be created in the same second: after a
    successful [create_checkpoint_dir], a second call with the same base
    directory while the clock still reads the same second raises
    [FileExistsError] and changes nothing. *)
Theorem second_creation_in_the_same_second_fails (w w' : world)
    (save_dirpath config_ymlpath config_ymlpath' d : path) :
  create_checkpoint_dir save_dirpath config_ymlpath w = (Ok d, w') ->
  create_checkpoint_dir save_dirpath config_ymlpath' w'
  = (Raise FileExistsError, w').
Proof.
  intros E. apply create_checkpoint_dir_Ok in E
    as (-> & files & content & out & rc & Hgit & Hbase & ->).
  set (dir := OS.path_join save_dirpath (OS.strftime (now w))).
  set (w' := set_fs w _).
  assert (Hdir : fs w' !! dir = Some Dir).
  { simpl. rewrite !lookup_insert_ne by apply path_join_ne_dir.
    apply lookup_insert_eq. }
  assert (Hsave : OS.path_exists (fs w') save_dirpath = true).
  { apply path_isdir_exists. simpl.
    rewrite !path_isdir_insert_ne; [done| | |].
    - apply path_join_ne_dir.
    - apply path_join_ne_parent.
    - apply path_join_ne_parent. }
  unfold create_checkpoint_dir, bind at 1, OS.datetime_now.
  change (now w') with (now w). fold dir.
  unfold bind at 1, OS.makedirs. unfold dir at 1, OS.path_join.
  rewrite rev_app_distr. simpl.
  unfold bind at 1, get_fs. unfold bind at 1.
  assert (Hhead :
    (match rev save_dirpath with
     | [] => ret tt
     | _ => if OS.path_exists (fs w') (rev (rev save_dirpath)) then ret tt
            else try_pass FileExistsError
                   (OS.makedirs_rev (rev save_dirpath))
     end) w' = (Ok tt, w')).
  { destruct (rev save_dirpath) eqn:Hr; [done|]. rewrite <- Hr.
    by rewrite rev_involutive, Hsave. }
  rewrite Hhead. rewrite rev_involutive.
  fold (OS.path_join save_dirpath (OS.strftime (now w))). fold dir.
  unfold OS.mkdir, bind, get_fs, raise.
  assert (OS.path_exists (fs w') dir = true) as ->; [|done].
  unfold OS.path_exists.
  destruct dir eqn:Hd; [done|]. by rewrite Hdir.
Qed.


End session_creation_outcomes.

(** ** Normalisation of the commit *)

Section normalisation.
Import Str.






















End normalisation.

Section life_cycle.
Import Torch Checkpointing.


End life_cycle.

(** * Further properties of the tokens reader *)

Section reader_outcomes.
Import Numpy Readers.


Lemma range_full (n : nat) :
  range 0 (Z.of_nat n) 1 = Z.of_nat <$> seq 0 n.
Proof.
  unfold range, range_len. simpl.
  assert (Z.to_nat (if 0 <? Z.of_nat n
                    then (Z.of_nat n - 0 - 1) / 1 + 1 else 0) = n) as ->.
  { destruct (0 <? Z.of_nat n) eqn:E; [rewrite Z.div_1_r|]; lia. }
  apply map_ext. intros k. lia.
Qed.

(** [a[:]] is the whole array. *)
Lemma getitem_slice_all (a : ndarray) :
  getitem_slice a None None None = Ok a.
Proof.
  unfold getitem_slice, slice_indices. simpl. f_equal.
  rewrite range_full.
  assert (Hks : forall ks : list nat,
    omap (fun i => a !! Z.to_nat i) (Z.of_nat <$> ks)
    = omap (fun k => a !! (0 + k)%nat) ks).
  { induction ks as [|k ks IH]; [done|].
    simpl. rewrite Nat2Z.id.
    destruct (a !! k); [f_equal|]; exact IH. }
  rewrite Hks, rows_from by lia.
  by rewrite drop_0, firstn_all.
Qed.

Lemma zip_instances_length_min (ps : ndarray) :
  forall qs ans iis : ndarray,
    length (zip_instances ps qs ans iis)
    = Nat.min (Nat.min (Nat.min (length ps) (length qs)) (length ans))
              (length iis).
Proof.
  induction ps as [|p ps IH]; intros [|q qs] [|a ans] [|ii iis];
    simpl; try lia.
  rewrite IH. lia.
Qed.

(** X17.  [reader[:]] never fails, also when the four arrays have
    different lengths: it returns as many records as the shortest array
    has rows, the [k]-th being the cross-section at row [k]; the rows the
    longer arrays have beyond that are dropped without an error. *)
Theorem full_slice_stops_at_shortest_array (self : ClevrTokensReader) :
  exists l,
    __getitem__ self (Slice None None None) = Ok (Batch l)
    /\ length l
       = Nat.min (Nat.min (Nat.min (length (programs self))
                                   (length (questions self)))
                          (length (answers self)))
                 (length (image_indices self))
    /\ (forall k, l !! k = row_at self k).
Proof.
  eexists. unfold __getitem__, rbind. rewrite !getitem_slice_all.
  split; [done|]. split.
  - apply zip_instances_length_min.
  - intros k. apply zip_instances_lookup.
Qed.

Lemma getitem_int_in_range (a : ndarray) (i : Z) :
  in_range a i ->
  exists r, getitem_int a i = Ok r /\ a !! position a i = Some r.
Proof. apply getitem_int_row. Qed.

Lemma getitem_int_not_in_range (a : ndarray) (i : Z) :
  ~ in_range a i -> getitem_int a i = Raise IndexError.
Proof.
  intros H. apply getitem_int_out_of_range. unfold in_range in H. lia.
Qed.

(** X18.  [reader[i]] on any reader, equal lengths or not: it succeeds
    exactly when [i] is a valid index into each of the four arrays, and
    raises [IndexError] otherwise; each field of the record comes from its
    own array at the position [i] denotes there, so that a negative index
    on arrays of different lengths pairs rows of different positions. *)
Theorem getitem_int_indexes_each_array (self : ClevrTokensReader) (i : Z) :
  (in_range (programs self) i /\ in_range (questions self) i
   /\ in_range (answers self) i /\ in_range (image_indices self) i ->
   exists x,
     __getitem__ self (Int i) = Ok (Single x)
     /\ programs self !! position (programs self) i = Some (program x)
     /\ questions self !! position (questions self) i = Some (question x)
     /\ answers self !! position (answers self) i = Some (answer x)
     /\ image_indices self !! position (image_indices self) i
        = Some (image_index x))
  /\ (~ (in_range (programs self) i /\ in_range (questions self) i
         /\ in_range (answers self) i /\ in_range (image_indices self) i) ->
      __getitem__ self (Int i) = Raise IndexError).
Proof.
  split.
  - intros (Hp & Hq & Ha & Hi). unfold __getitem__, rbind.
    destruct (getitem_int_in_range _ _ Hp) as (p & -> & ?).
    destruct (getitem_int_in_range _ _ Hq) as (q & -> & ?).
    destruct (getitem_int_in_range _ _ Ha) as (a & -> & ?).
    destruct (getitem_int_in_range _ _ Hi) as (ii & -> & ?).
    eexists. split; [done|]. done.
  - intros Hno. unfold __getitem__, rbind.
    destruct (decide (in_range (programs self) i)) as [Hp|Hp];
      [|by rewrite getitem_int_not_in_range].
    destruct (getitem_int_in_range _ _ Hp) as (p & -> & _).
    destruct (decide (in_range (questions self) i)) as [Hq|Hq];
      [|by rewrite getitem_int_not_in_range].
    destruct (getitem_int_in_range _ _ Hq) as (q & -> & _).
    destruct (decide (in_range (answers self) i)) as [Ha|Ha];
      [|by rewrite getitem_int_not_in_range].
    destruct (getitem_int_in_range _ _ Ha) as (a & -> & _).
    destruct (decide (in_range (image_indices self) i)) as [Hi|Hi];
      [|by rewrite getitem_int_not_in_range].
    by destruct Hno.
Qed.


(** X19.  Slices agree with single indices: on a reader whose four arrays
    have [n] rows, for [0 <= lo <= k < hi <= n] the record at position
    [k - lo] of [reader[lo:hi]] is the record [reader[k]]. *)
Theorem slice_agrees_with_item (self : ClevrTokensReader) (n : nat)
    (lo hi k : Z) :
  length (programs self) = n ->
  length (questions self) = n ->
  length (answers self) = n ->
  length (image_indices self) = n ->
  0 <= lo /\ lo <= k < hi /\ hi <= Z.of_nat n ->
  exists l x,
    __getitem__ self (Slice (Some lo) (Some hi) None) = Ok (Batch l)
    /\ __getitem__ self (Int k) = Ok (Single x)
    /\ l !! Z.to_nat (k - lo) = Some x
    /\ length l = Z.to_nat (hi - lo).
Proof.
  intros Hp Hq Ha Hi Hrange.
  pose proof (zip_instances_length n _ _ _ _ Hp Hq Ha Hi) as Hlen.
  assert (Hclamp : forall v, 0 <= v <= Z.of_nat n ->
                             clamp (Z.of_nat n) v = v).
  { intros v Hv. unfold clamp.
    assert (E : (v <? 0) = false) by lia. rewrite E. lia. }
  destruct (lookup_lt_is_Some_2
              (zip_instances (programs self) (questions self)
                             (answers self) (image_indices self))
              (Z.to_nat k)) as [x Hx]; [lia|].
  eexists _, x. unfold __getitem__ at 1, rbind.
  rewrite !getitem_slice_segment, Hp, Hq, Ha, Hi.
  rewrite zip_instances_take_drop, !Hclamp by lia.
  split; [done|]. split; [|split].
  - pose proof Hx as Hx'. rewrite zip_instances_lookup in Hx'.
    unfold __getitem__, rbind.
    destruct (getitem_int_in_range (programs self) k) as (p & -> & Lp);
      [unfold in_range; lia|].
    destruct (getitem_int_in_range (questions self) k) as (q & -> & Lq);
      [unfold in_range; lia|].
    destruct (getitem_int_in_range (answers self) k) as (a & -> & La);
      [unfold in_range; lia|].
    destruct (getitem_int_in_range (image_indices self) k)
      as (ii & -> & Lii); [unfold in_range; lia|].
    unfold position in *.
    assert (E : (k <? 0) = false) by lia. rewrite E in *.
    rewrite Lp, Lq, La, Lii in Hx'. simpl in Hx'. by injection Hx' as <-.
  - rewrite lookup_take_lt, lookup_drop by lia.
    by replace (Z.to_nat lo + Z.to_nat (k - lo))%nat with (Z.to_nat k)
      by lia.
  - rewrite length_take, length_drop. lia.
Qed.

(** X20.  A reader over an empty [programs] array: every integer index
    raises [IndexError], and every slice with a non-zero step, whatever its
    bounds and whatever the other arrays hold, returns no record. *)
Theorem empty_reader_has_no_records (self : ClevrTokensReader) :
  programs self = [] ->
  (forall i, __getitem__ self (Int i) = Raise IndexError)
  /\ (forall start stop step,
        step <> Some 0 ->
        __getitem__ self (Slice start stop step) = Ok (Batch [])).
Proof.
  intros Hempty. split.
  - intros i. unfold __getitem__, rbind. rewrite Hempty.
    by rewrite getitem_int_not_in_range by (unfold in_range; simpl; lia).
  - intros start stop step Hstep.
    assert (Hok : forall a : ndarray,
      exists rows, getitem_slice a start stop step = Ok rows).
    { intros a. unfold getitem_slice, slice_indices.
      destruct (default 1 step =? 0) eqn:E; [|eauto].
      destruct step as [st|]; simpl in E; [|done].
      destruct Hstep. f_equal. lia. }
    assert (Hnil : getitem_slice [] start stop step = Ok []).
    { destruct (Hok []) as [rows Hrows]. rewrite Hrows. f_equal.
      unfold getitem_slice in Hrows.
      destruct (slice_indices _ _ _ _) as [[[lo hi] st]|]; [|done].
      injection Hrows as <-.
      induction (range lo hi st) as [|j js IH]; [done|]. exact IH. }
    unfold __getitem__, rbind. rewrite Hempty, Hnil.
    destruct (Hok (questions self)) as [qs ->].
    destruct (Hok (answers self)) as [ans ->].
    destruct (Hok (image_indices self)) as [iis ->].
    done.
Qed.

End reader_outcomes.

Section reversed_slices.
Import Numpy Readers.

Lemma rows_backwards (a : ndarray) (n : nat) :
  (n <= length a)%nat ->
  omap (fun k => a !! (length a - 1 - k)%nat) (seq 0 n)
  = rev (drop (length a - n) a).
Proof.
  induction n as [|n IH]; intros Hle.
  - by rewrite Nat.sub_0_r, drop_all.
  - rewrite seq_S, omap_app, IH by lia. simpl.
    destruct (lookup_lt_is_Some_2 a (length a - 1 - n)) as [x Hx]; [lia|].
    rewrite Hx. simpl.
    replace (length a - S n)%nat with (length a - 1 - n)%nat by lia.
    rewrite (drop_S a x (length a - 1 - n)) by done. simpl.
    by replace (S (length a - 1 - n)) with (length a - n)%nat by lia.
Qed.

(** [a[::-1]] is the array backwards. *)
Lemma getitem_slice_backwards (a : ndarray) :
  getitem_slice a None None (Some (-1)) = Ok (rev a).
Proof.
  unfold getitem_slice, slice_indices. simpl. f_equal.
  unfold range.
  assert (Z.to_nat (range_len (Z.of_nat (length a) - 1) (-1) (-1))
          = length a) as ->.
  { unfold range_len. simpl.
    destruct (-1 <? Z.of_nat (length a) - 1) eqn:E;
      [rewrite Z.div_1_r|]; lia. }
  pose proof (rows_backwards a (length a) ltac:(lia)) as H.
  rewrite Nat.sub_diag, drop_0 in H. rewrite <- H.
  assert (Hks : forall ks : list nat,
    Forall (fun k => k < length a)%nat ks ->
    omap (fun i => a !! Z.to_nat i)
         (map (fun k => Z.of_nat (length a) - 1 + Z.of_nat k * -1) ks)
    = omap (fun k => a !! (length a - 1 - k)%nat) ks).
  { induction ks as [|k ks IH]; [done|]. intros [Hk Hks]%Forall_cons.
    simpl.
    replace (Z.to_nat (Z.of_nat (length a) - 1 + Z.of_nat k * -1))
      with (length a - 1 - k)%nat by lia.
    destruct (a !! (length a - 1 - k)%nat); [f_equal|]; by apply IH. }
  apply Hks. apply Forall_forall. intros k Hk%elem_of_seq. lia.
Qed.

Lemma zip_instances_app (ps1 : ndarray) :
  forall (qs1 ans1 iis1 ps2 qs2 ans2 iis2 : ndarray),
    length qs1 = length ps1 ->
    length ans1 = length ps1 ->
    length iis1 = length ps1 ->
    zip_instances (ps1 ++ ps2) (qs1 ++ qs2) (ans1 ++ ans2) (iis1 ++ iis2)
    = (zip_instances ps1 qs1 ans1 iis1
       ++ zip_instances ps2 qs2 ans2 iis2)%list.
Proof.
  induction ps1 as [|p ps1 IH];
    intros [|q qs1] [|a ans1] [|ii iis1] ps2 qs2 ans2 iis2; simpl;
    try done.
  intros [= ?] [= ?] [= ?]. f_equal. by apply IH.
Qed.

Lemma zip_instances_rev (n : nat) :
  forall ps qs ans iis : ndarray,
    length ps = n -> length qs = n -> length ans = n -> length iis = n ->
    zip_instances (rev ps) (rev qs) (rev ans) (rev iis)
    = rev (zip_instances ps qs ans iis).
Proof.
  induction n as [|n IH]; intros [|p ps] [|q qs] [|a ans] [|ii iis];
    simpl; try done.
  intros [= Hp] [= Hq] [= Ha] [= Hi].
  rewrite zip_instances_app by (rewrite !length_rev; congruence).
  by rewrite IH.
Qed.

(** X21.  Slices with a negative step run backwards: on a reader whose
    four arrays have the same number of rows, [reader[::-1]] returns the
    records of [reader[:]] in the opposite order, last row first. *)
Theorem backwards_slice_reverses_the_records (self : ClevrTokensReader)
    (n : nat) :
  length (programs self) = n ->
  length (questions self) = n ->
  length (answers self) = n ->
  length (image_indices self) = n ->
  exists l,
    __getitem__ self (Slice None None None) = Ok (Batch l)
    /\ __getitem__ self (Slice None None (Some (-1))) = Ok (Batch (rev l))
    /\ length l = n.
Proof.
  intros Hp Hq Ha Hi. eexists. unfold __getitem__, rbind.
  rewrite !getitem_slice_all, !getitem_slice_backwards.
  split; [done|]. split.
  - by rewrite (zip_instances_rev n).
  - by apply zip_instances_length.
Qed.

End reversed_slices.

(** * The further properties on the sample data *)

Section further_samples.
Import Torch Checkpointing Numpy Readers Sample.

Local Ltac evaluate :=
  apply (bool_decide_unpack _); vm_compute; exact I.

Lemma sample_save_frame :
  git (snd (save_checkpoint session_dir 3 (Net trained) sgd session))
  = git session
  /\ now (snd (save_checkpoint session_dir 3 (Net trained) sgd session))
     = now session
  /\ warnings (snd (save_checkpoint session_dir 3 (Net trained) sgd session))
     = warnings session
  /\ (forall p, p <> artifact_path session_dir 3 ->
        fs (snd (save_checkpoint session_dir 3 (Net trained) sgd session))
        !! p = fs session !! p).
Proof.
  apply (save_checkpoint_touches_only_its_artifact session _ session_dir 3
           (Net trained) sgd
           (fst (save_checkpoint session_dir 3 (Net trained) sgd session))).
  vm_compute. reflexivity.
Defined.


Lemma sample_two_iterations :
  exists w1 w2,
    save_checkpoint session_dir 3 (Net trained) sgd session = (Ok tt, w1)
    /\ save_checkpoint session_dir 4 (Net retrained) sgd_later w1
       = (Ok tt, w2)
    /\ fs w2 !! artifact_path session_dir 3
       = Some (Pickled (artifact (Net trained) sgd))
    /\ fs w2 !! artifact_path session_dir 4
       = Some (Pickled (artifact (Net retrained) sgd_later))
    /\ exists model' w3,
         load_checkpoint session_dir 3 (Net blank) None w2
         = (Ok (model', None), w3)
         /\ state_dict (underlying model')
            = state_dict (underlying (Net trained)).
Proof.
  apply (saves_of_distinct_iterations_are_independent session session_dir
           3 4 (Net trained) (Net retrained) (Net blank) sgd sgd_later
           "abc1234" ("abc1234" +:+ String Str.newline EmptyString) 0).
  - split; reflexivity.
  - reflexivity.
  - lia.
  - vm_compute. discriminate.
  - vm_compute. discriminate.
  - unfold picklable_state. evaluate.
  - unfold picklable_state. evaluate.
  - unfold picklable_state. evaluate.
  - unfold picklable_state. evaluate.
  - vm_compute. reflexivity.
Defined.

Lemma sample_load_reads :
  fs (snd (load_checkpoint session_dir 3 (Net blank) None moved_on))
  = fs moved_on
  /\ git (snd (load_checkpoint session_dir 3 (Net blank) None moved_on))
     = git moved_on
  /\ now (snd (load_checkpoint session_dir 3 (Net blank) None moved_on))
     = now moved_on
  /\ (warnings (snd (load_checkpoint session_dir 3 (Net blank) None
                       moved_on))
      = warnings moved_on
      \/ exists msg,
           warnings (snd (load_checkpoint session_dir 3 (Net blank) None
                            moved_on))
           = (warnings moved_on ++ [msg])%list).
Proof.
  apply (load_checkpoint_only_reads moved_on _ session_dir 3 (Net blank)
           None
           (fst (load_checkpoint session_dir 3 (Net blank) None moved_on))).
  vm_compute. reflexivity.
Defined.



Lemma sample_missing_iteration :
  load_checkpoint session_dir 3 (Net blank) (Some sgd_blank) session
  = (Raise FileNotFoundError,
     after_check session ("abc1234" +:+ String Str.newline EmptyString)
                 "abc1234").
Proof.
  apply (load_checkpoint_missing_iteration session session_dir 3 (Net blank)
           (Some sgd_blank) "abc1234"
           ("abc1234" +:+ String Str.newline EmptyString) 0);
    reflexivity.
Defined.


Lemma sample_model_only :
  (exists model',
     load_checkpoint session_dir 5 (Net blank) None model_only
     = (Ok (model', None),
        after_check model_only
          ("abc1234" +:+ String Str.newline EmptyString) "abc1234")
     /\ state_dict (underlying model') = trained)
  /\ load_checkpoint session_dir 5 (Net blank) (Some sgd_blank) model_only
     = (Raise KeyError,
        after_check model_only
          ("abc1234" +:+ String Str.newline EmptyString) "abc1234").
Proof.
  apply (load_checkpoint_optimizer_is_optional model_only session_dir 5
           (Net blank) sgd_blank "abc1234"
           ("abc1234" +:+ String Str.newline EmptyString) 0
           {[ "model" := ModelState trained ]} trained).
  - reflexivity.
  - reflexivity.
  - reflexivity.
  - reflexivity.
  - reflexivity.
  - vm_compute. reflexivity.
Defined.

Lemma sample_other_architecture :
  load_checkpoint session_dir 3 (Net smaller) None moved_on
  = (Raise RuntimeError,
     after_check moved_on
       ("def4567" +:+ String Str.newline EmptyString) "abc1234").
Proof.
  apply (load_checkpoint_rejects_other_architecture moved_on session_dir 3
           (Net smaller) None "abc1234"
           ("def4567" +:+ String Str.newline EmptyString) 0
           {[ "model" := ModelState trained;
              "optimizer" := OptimState (optimizer_state_dict sgd) ]}
           trained).
  - reflexivity.
  - reflexivity.
  - reflexivity.
  - reflexivity.
  - vm_compute. discriminate.
Defined.

Lemma sample_created_session :
  session_dir = OS.path_join ["runs"] (OS.strftime (now fresh))
  /\ (exists out rc, git fresh = GitRan out rc
                     /\ is_session session session_dir (Str.strip_sha out))
  /\ git session = git fresh /\ now session = now fresh
  /\ warnings session = warnings fresh.
Proof.
  apply (created_directory_is_a_session fresh session ["runs"] ["cfg.yml"]
           session_dir).
  vm_compute. reflexivity.
Defined.

Lemma sample_second_creation :
  create_checkpoint_dir ["runs"] ["cfg.yml"] session
  = (Raise FileExistsError, session).
Proof.
  apply (second_creation_in_the_same_second_fails fresh session ["runs"]
           ["cfg.yml"] ["cfg.yml"] session_dir).
  vm_compute. reflexivity.
Defined.



(** On the ragged reader the index [-1] is valid in each array: the
    record pairs row 9 of [programs] with row 8 of [questions]. *)
Lemma sample_ragged_negative_index :
  exists x,
    __getitem__ ragged_reader (Int (-1)) = Ok (Single x)
    /\ programs ragged_reader !! 9%nat = Some (program x)
    /\ questions ragged_reader !! 8%nat = Some (question x)
    /\ answers ragged_reader !! 9%nat = Some (answer x)
    /\ image_indices ragged_reader !! 9%nat = Some (image_index x).
Proof.
  apply (proj1 (getitem_int_indexes_each_array ragged_reader (-1))).
  unfold in_range. vm_compute. repeat split; discriminate.
Defined.

Lemma sample_slice_and_item :
  exists l x,
    __getitem__ reader (Slice (Some 2) (Some 5) None) = Ok (Batch l)
    /\ __getitem__ reader (Int 3) = Ok (Single x)
    /\ l !! Z.to_nat (3 - 2) = Some x
    /\ length l = Z.to_nat (5 - 2).
Proof.
  apply (slice_agrees_with_item reader 10 2 5 3); try reflexivity.
  lia.
Defined.

Lemma sample_empty_reader :
  (forall i, __getitem__ empty_reader (Int i) = Raise IndexError)
  /\ (forall start stop step,
        step <> Some 0 ->
        __getitem__ empty_reader (Slice start stop step) = Ok (Batch [])).
Proof.
  apply (empty_reader_has_no_records empty_reader). reflexivity.
Defined.

Lemma sample_backwards :
  exists l,
    __getitem__ reader (Slice None None None) = Ok (Batch l)
    /\ __getitem__ reader (Slice None None (Some (-1))) = Ok (Batch (rev l))
    /\ length l = 10%nat.
Proof.
  apply (backwards_slice_reverses_the_records reader 10); reflexivity.
Defined.

End further_samples.
